(** * DermaFix AI: blemish-removal editor

    A shallow embedding of the client-side logic of the repository:
    - [src/utils/imageHelpers.ts]   data-URL helpers,
    - [src/components/Header.tsx]   (second half) the Gemini service wrapper,
    - [src/App.tsx]                 the session state and [handleProcessImage],
    - [src/components/UploadZone.tsx] (second half) the [Editor] component:
      spot store, mode buttons, preview style and export composition.

    Conventions.  JavaScript strings are modelled by [string] (one [ascii]
    per code unit), JavaScript numbers by exact rationals [Q] (integers that
    the code only ever uses as integers by [Z] or [N]), [undefined]/[null]
    by [None].  React state is an explicit record and every event handler is
    a function from the state before the event to the state after it.
    Rounding of doubles is not modelled; nor is division by zero (which
    JavaScript answers with [Infinity] or [NaN], and which the handlers can
    only meet for a container of zero width or height). *)

From Stdlib Require Import ZArith NArith QArith Qround Bool List Lia Lqa.
From Stdlib Require Import Strings.Ascii Strings.String.
From Stdlib Require Import Numbers.DecimalString Numbers.DecimalN.
Import ListNotations.

Local Open Scope string_scope.
Local Open Scope Z_scope.

(* ================================================================== *)
(** ** JavaScript string primitives used by the sources *)

Module JS.

(** [s.indexOf(c)] for a one-character needle: position of the first
    occurrence, [-1] when there is none. *)
Fixpoint indexOfFrom (c : ascii) (s : string) (i : Z) : Z :=
  match s with
  | EmptyString => -1
  | String a rest => if Ascii.eqb a c then i else indexOfFrom c rest (i + 1)
  end.

Definition indexOf (s : string) (c : ascii) : Z := indexOfFrom c s 0.

(** [s.substring(start, end)]: both indices are clamped to [0, length]
    and swapped when [start > end]. *)
Definition clampIndex (s : string) (i : Z) : Z :=
  Z.min (Z.max i 0) (Z.of_nat (String.length s)).

Definition substring (s : string) (istart iend : Z) : string :=
  let a := clampIndex s istart in
  let b := clampIndex s iend in
  let from := Z.min a b in
  let to := Z.max a b in
  String.substring (Z.to_nat from) (Z.to_nat (to - from)) s.

(** [s.split(c)] for a one-character separator. *)
Fixpoint split (sep : ascii) (s : string) : list string :=
  match s with
  | EmptyString => [EmptyString]
  | String a rest =>
      if Ascii.eqb a sep then EmptyString :: split sep rest
      else match split sep rest with
           | [] => [String a EmptyString]
           | piece :: pieces => String a piece :: pieces
           end
  end.

(** [s.includes(c)] for a one-character needle. *)
Fixpoint includes (s : string) (c : ascii) : bool :=
  match s with
  | EmptyString => false
  | String a rest => Ascii.eqb a c || includes rest c
  end.

(** [n.toString()] for a non-negative integer. *)
Definition toString (n : N) : string :=
  NilEmpty.string_of_uint (N.to_uint n).

(** Truthiness of a string: only the empty string is falsy. *)
Definition truthy (s : string) : bool :=
  match s with EmptyString => false | _ => true end.

(** A promise that is observed once the event loop has drained:
    it has been fulfilled, has been rejected, or never settles. *)
Inductive Promise (A : Type) : Type :=
| Pending
| Fulfilled (a : A)
| Rejected (reason : string).
Arguments Pending {A}.
Arguments Fulfilled {A} a.
Arguments Rejected {A} reason.

(** [Promise.all([p, q])] *)
Definition all2 {A B} (p : Promise A) (q : Promise B) : Promise (A * B) :=
  match p, q with
  | Fulfilled a, Fulfilled b => Fulfilled (a, b)
  | Rejected e, _ => Rejected e
  | _, Rejected e => Rejected e
  | _, _ => Pending
  end.

(** What running a callback does: it returns a value or throws. *)
Inductive Outcome (B : Type) : Type :=
| Returns (b : B)
| Raises (reason : string).
Arguments Returns {B} b.
Arguments Raises {B} reason.

(** [p.then(f)]: the callback runs only once [p] is fulfilled; when it
    throws, the derived promise is rejected. *)
Definition andThen {A B} (p : Promise A) (f : A -> Outcome B) : Promise B :=
  match p with
  | Pending => Pending
  | Fulfilled a =>
      match f a with
      | Returns b => Fulfilled b
      | Raises e => Rejected e
      end
  | Rejected e => Rejected e
  end.

End JS.

(* ================================================================== *)
(** ** src/utils/imageHelpers.ts *)

Module ImageHelpers.

(** [dataUrl.split(',')[1]]; index 1 of the array is [undefined] when the
    string holds no comma. *)
Definition getBase64Data (dataUrl : string) : option string :=
  nth_error (JS.split "," dataUrl) 1.

(** [dataUrl.substring(dataUrl.indexOf(':') + 1, dataUrl.indexOf(';'))] *)
Definition getMimeType (dataUrl : string) : string :=
  JS.substring dataUrl (JS.indexOf dataUrl ":" + 1) (JS.indexOf dataUrl ";").

(** The shape of the string that [FileReader.readAsDataURL] yields and
    that [handleProcessImage] rebuilds:
    [`data:${mimeType};base64,${data}`]. *)
Definition dataUrl (mimeType data : string) : string :=
  "data:" ++ mimeType ++ ";base64," ++ data.

(** The characters of a base64 payload: letters, digits, [+], [/]
    and the padding [=]. *)
Definition isBase64Char (c : ascii) : bool :=
  let n := nat_of_ascii c in
  ((65 <=? n) && (n <=? 90) || (97 <=? n) && (n <=? 122)
   || (48 <=? n) && (n <=? 57) || (n =? 43) || (n =? 47) || (n =? 61))%nat.

Fixpoint isBase64 (s : string) : bool :=
  match s with
  | EmptyString => true
  | String c rest => isBase64Char c && isBase64 rest
  end.

End ImageHelpers.

(* ================================================================== *)
(** ** src/components/Header.tsx, second half: the Gemini service *)

Module GeminiService.

(** A thrown value; [message] is the empty string when [err.message] is
    [undefined] or empty (both are falsy for [err.message || ...]). *)
Record Error : Type := mkError { message : string }.

(** The part of the SDK response that [processFaceImage] reads. *)
Record InlineData : Type := mkInlineData { data : option string }.
Record Part : Type := mkPart { inlineData : option InlineData }.
(** [content.parts]; [None] when [content] or [parts] is missing. *)
Record Candidate : Type := mkCandidate { parts : option (list Part) }.
Record Response : Type := mkResponse { candidates : option (list Candidate) }.

(** What [await ai.models.generateContent(...)] does. *)
Inductive RemoteOutcome : Type :=
| Throws (e : Error)
| Responds (r : Response).

(** What an [async] function does: it returns or it throws. *)
Inductive Result (A : Type) : Type :=
| Return (a : A)
| Throw (e : Error).
Arguments Return {A} a.
Arguments Throw {A} e.

(** [for (const part of parts) if (part.inlineData && part.inlineData.data)
    return part.inlineData.data;] *)
Fixpoint firstInlineData (ps : list Part) : option string :=
  match ps with
  | [] => None
  | p :: rest =>
      match inlineData p with
      | Some (mkInlineData (Some d)) =>
          if JS.truthy d then Some d else firstInlineData rest
      | _ => firstInlineData rest
      end
  end.

(** Reading [.parts] of a missing [content], or iterating a missing
    [parts], throws a [TypeError] (message as V8 words it); the [catch]
    block logs and rethrows whatever was thrown. *)
Definition typeError : Error :=
  mkError "Cannot read properties of undefined (reading 'parts')".

Definition noImageData : Error :=
  mkError "No image data returned from the model.".

Definition processFaceImage (remote : RemoteOutcome) : Result string :=
  match remote with
  | Throws e => Throw e
  | Responds response =>
      match candidates response with
      | Some (c :: _) =>
          match parts c with
          | None => Throw typeError
          | Some ps =>
              match firstInlineData ps with
              | Some d => Return d
              | None => Throw noImageData
              end
          end
      | _ => Throw noImageData
      end
  end.

(** The failure of the collaborator as the interface contract words it:
    the remote call throws, or no part of any candidate of its response
    carries image data. *)
Definition partCarriesImage (p : Part) : bool :=
  match inlineData p with
  | Some (mkInlineData (Some d)) => JS.truthy d
  | _ => false
  end.

Definition candidateCarriesImage (c : Candidate) : bool :=
  match parts c with
  | Some ps => existsb partCarriesImage ps
  | None => false
  end.

Definition carriesImageData (r : Response) : bool :=
  match candidates r with
  | Some cs => existsb candidateCarriesImage cs
  | None => false
  end.

Definition callFails (remote : RemoteOutcome) : bool :=
  match remote with
  | Throws _ => true
  | Responds r => negb (carriesImageData r)
  end.

End GeminiService.

(* ================================================================== *)
(** ** src/App.tsx *)

Module App.
Import GeminiService.

Record state : Type := mkState {
  originalImage : option string;
  processedImage : option string;
  isProcessing : bool;
  error : option string
}.

Definition initial : state := mkState None None false None.

(** An uploaded [File]: its size in bytes and what [fileToBase64] gives
    ([None] when the reader fires [onerror] and the promise rejects). *)
Record File : Type := mkFile { size : Z; readAsDataURL : option string }.

Definition handleImageSelected (file : File) (st : state) : state :=
  let st := mkState (originalImage st) (processedImage st) (isProcessing st) None in
  if 50 * 1024 * 1024 <? size file then
    mkState (originalImage st) (processedImage st) (isProcessing st)
            (Some "File size exceeds 50MB limit.")
  else
    match readAsDataURL file with
    | Some base64 => mkState (Some base64) None (isProcessing st) (error st)
    | None =>
        mkState (originalImage st) (processedImage st) (isProcessing st)
                (Some "Failed to load image. Please try another file.")
    end.

(** [err.message || "Failed to process image with Gemini AI."] *)
Definition errorText (err : Error) : string :=
  if JS.truthy (message err) then message err
  else "Failed to process image with Gemini AI.".

(** [handleProcessImage], observed when its promise has settled.  The
    remote collaborator is a function of the request it receives: the raw
    base64 data (possibly [undefined]) and the mime type. *)
Definition handleProcessImage
    (generateContent : option string -> string -> RemoteOutcome)
    (st : state) : state :=
  match originalImage st with
  | None => st
  | Some original =>
      if negb (JS.truthy original) then st
      else
        (* setIsProcessing(true); setError(null); *)
        let st := mkState (originalImage st) (processedImage st) true None in
        let mimeType := ImageHelpers.getMimeType original in
        let rawBase64 := ImageHelpers.getBase64Data original in
        let st :=
          match processFaceImage (generateContent rawBase64 mimeType) with
          | Return processedBase64Data =>
              mkState (originalImage st)
                      (Some (ImageHelpers.dataUrl mimeType processedBase64Data))
                      (isProcessing st) (error st)
          | Throw err =>
              mkState (originalImage st) (processedImage st)
                      (isProcessing st) (Some (errorText err))
          end in
        (* finally { setIsProcessing(false); } *)
        mkState (originalImage st) (processedImage st) false (error st)
  end.

Definition handleReset (st : state) : state :=
  mkState None None (isProcessing st) None.

(** *** The two [async] handlers, cut at their [await]

    Each handler runs to its [await] when the event fires and resumes
    when the awaited promise settles; other events may be handled in
    between. *)

(** [handleImageSelected] up to [await fileToBase64(file)]; the flag says
    whether the read was started. *)
Definition beginImageSelected (file : File) (st : state) : state * bool :=
  let st := mkState (originalImage st) (processedImage st) (isProcessing st) None in
  if 50 * 1024 * 1024 <? size file then
    (mkState (originalImage st) (processedImage st) (isProcessing st)
             (Some "File size exceeds 50MB limit."),
     false)
  else (st, true).

(** [handleImageSelected] from the settlement of the read. *)
Definition settleImageSelected (file : File) (st : state) : state :=
  match readAsDataURL file with
  | Some base64 => mkState (Some base64) None (isProcessing st) (error st)
  | None =>
      mkState (originalImage st) (processedImage st) (isProcessing st)
              (Some "Failed to load image. Please try another file.")
  end.

(** What a retouch call in flight holds: the arguments it was made with
    ([mimeType] is read again when the call settles). *)
Record Request : Type := mkRequest {
  rawBase64 : option string;
  mimeType : string
}.

(** [handleProcessImage] up to [await processFaceImage(...)]. *)
Definition beginProcessImage (st : state) : state * option Request :=
  match originalImage st with
  | None => (st, None)
  | Some original =>
      if negb (JS.truthy original) then (st, None)
      else
        (mkState (originalImage st) (processedImage st) true None,
         Some (mkRequest (ImageHelpers.getBase64Data original)
                         (ImageHelpers.getMimeType original)))
  end.

(** [handleProcessImage] from the settlement of the call, [finally]
    included. *)
Definition settleProcessImage (req : Request) (remote : RemoteOutcome)
    (st : state) : state :=
  let st :=
    match processFaceImage remote with
    | Return processedBase64Data =>
        mkState (originalImage st)
                (Some (ImageHelpers.dataUrl (mimeType req) processedBase64Data))
                (isProcessing st) (error st)
    | Throw err =>
        mkState (originalImage st) (processedImage st)
                (isProcessing st) (Some (errorText err))
    end in
  mkState (originalImage st) (processedImage st) false (error st).

End App.

(* ================================================================== *)
(** ** src/components/UploadZone.tsx, first half: the drop zone *)

Module UploadZone.

(** A [File] as the drop zone sees it: its [type] and what [App] will
    read from it. *)
Record DroppedFile : Type := mkDroppedFile {
  fileType : string;
  payload : App.File
}.

(** The handlers write the [isDragging] cell; the result is its new
    value. *)
Definition handleDragOver (isDragging : bool) : bool := true.
Definition handleDragLeave (isDragging : bool) : bool := false.

(** [handleDrop]: the new [isDragging] and the file handed to
    [onImageSelected], if any.  Only [files[0]] is looked at, and only
    when [file.type.startsWith('image/')]. *)
Definition handleDrop (files : list DroppedFile) : bool * option App.File :=
  (false,
   match files with
   | f :: _ =>
       if String.prefix "image/" (fileType f) then Some (payload f) else None
   | [] => None
   end).

(** [handleFileInput]: [files[0]] is handed on whatever its type. *)
Definition handleFileInput (files : list DroppedFile) : option App.File :=
  match files with
  | f :: _ => Some (payload f)
  | [] => None
  end.

End UploadZone.

(* ================================================================== *)
(** ** The browser surface the Editor draws on

    [HTMLImageElement], [HTMLCanvasElement] and [CanvasRenderingContext2D]
    are not code of the repository.  Their behaviour is fixed here as far as
    [handleDownload] uses it; what browsers are free to choose (the colour
    type, source-over blending, the resampling filter, the image decoder,
    whether a 2D context can be had) is a parameter, [Platform]. *)

Module Canvas2D.

Local Open Scope Q_scope.

Record Image (C : Type) : Type := mkImage {
  naturalWidth : Z;
  naturalHeight : Z;
  texel : Z -> Z -> C
}.
Arguments mkImage {C} _ _ _.
Arguments naturalWidth {C} _.
Arguments naturalHeight {C} _.
Arguments texel {C} _ _ _.

Class Platform : Type := mkPlatform {
  color : Type;
  (** a cleared canvas pixel *)
  transparent : color;
  (** [over alpha src dst]: [src] composited source-over onto [dst]
      under [globalAlpha = alpha] *)
  over : Q -> color -> color -> color;
  (** colour of an image at a position of its own pixel grid *)
  resample : Image color -> Q -> Q -> color;
  (** [img.src = src]: [Some] when [onload] fires, [None] when the
      decode fails *)
  decode : string -> option (Image color);
  (** whether [canvas.getContext('2d')] is non-null *)
  getContext2d : bool
}.

Section WithPlatform.
Context {P : Platform}.

Record Canvas : Type := mkCanvas {
  width : Z;
  height : Z;
  pixel : Z -> Z -> color
}.

(** Assigning [canvas.width]/[canvas.height] clears the bitmap. *)
Definition blank (w h : Z) : Canvas := mkCanvas w h (fun _ _ => transparent).

(** A region of the plane, in canvas pixel units. *)
Definition Region : Type := Q -> Q -> bool.

Definition Qltb (a b : Q) : bool := negb (Qle_bool b a).

(** [p] lies in the half-open interval between [a] and [b]. *)
Definition between (a b p : Q) : bool :=
  (Qle_bool a p && Qltb p b) || (Qle_bool b p && Qltb p a).

(** Closed subpaths of the current path.  A full-turn [arc] encloses a
    disk; the zero-length segment from the preceding [moveTo] encloses
    nothing. *)
Inductive Shape : Type :=
| RectShape (rx ry rw rh : Q)
| DiskShape (cx cy r : Q).

Definition inShape (sh : Shape) : Region :=
  fun px py =>
    match sh with
    | RectShape rx ry rw rh =>
        between rx (rx + rw) px && between ry (ry + rh) py
    | DiskShape cx cy r =>
        Qltb ((px - cx) * (px - cx) + (py - cy) * (py - cy)) (r * r)
    end.

(** Non-zero winding fill of subpaths that all turn the same way:
    their union. *)
Definition inPath (path : list Shape) : Region :=
  fun px py => existsb (fun sh => inShape sh px py) path.

Record DrawState : Type := mkDrawState {
  globalAlpha : Q;
  clip : Region
}.

Record Context2D : Type := mkContext {
  canvas : Canvas;
  current : DrawState;
  path : list Shape;
  point : option (Q * Q);
  saved : list DrawState
}.

Definition freshContext (c : Canvas) : Context2D :=
  mkContext c (mkDrawState 1 (fun _ _ => true)) [] None [].

(** The context calls [handleDownload] makes. *)
Inductive Cmd : Type :=
| DrawImage (img : Image color) (dx dy : Q)
| DrawImageScaled (img : Image color) (dx dy dw dh : Q)
| Save
| Restore
| SetGlobalAlpha (a : Q)
| BeginPath
| Rect (rx ry rw rh : Q)
| MoveTo (mx my : Q)
| Arc (cx cy r : Q)     (* startAngle 0, endAngle Math.PI * 2 *)
| Clip.

(** Centre of pixel [i]. *)
Definition centre (i : Z) : Q := inject_Z i + (1 # 2).

(** Paint [img] into the destination rectangle: every canvas pixel
    whose centre lies in the rectangle and in the clip region is
    blended with the image sampled at the corresponding position. *)
Definition paint (img : Image color) (dx dy dw dh : Q) (k : Context2D) : Canvas :=
  let c := canvas k in
  mkCanvas (width c) (height c)
    (fun i j =>
       let px := centre i in
       let py := centre j in
       if between dx (dx + dw) px && between dy (dy + dh) py
          && clip (current k) px py
       then over (globalAlpha (current k))
                 (resample img
                    ((px - dx) * inject_Z (naturalWidth img) / dw)
                    ((py - dy) * inject_Z (naturalHeight img) / dh))
                 (pixel c i j)
       else pixel c i j).

Definition withCanvas (c : Canvas) (k : Context2D) : Context2D :=
  mkContext c (current k) (path k) (point k) (saved k).
Definition withCurrent (d : DrawState) (k : Context2D) : Context2D :=
  mkContext (canvas k) d (path k) (point k) (saved k).
Definition withPath (p : list Shape) (pt : option (Q * Q)) (k : Context2D) : Context2D :=
  mkContext (canvas k) (current k) p pt (saved k).

(** One context call; [None] when the call throws ([arc] with a
    negative radius raises [IndexSizeError]). *)
Definition exec (c : Cmd) (k : Context2D) : option Context2D :=
  match c with
  | DrawImage img dx dy =>
      Some (withCanvas
              (paint img dx dy (inject_Z (naturalWidth img))
                     (inject_Z (naturalHeight img)) k) k)
  | DrawImageScaled img dx dy dw dh =>
      Some (withCanvas (paint img dx dy dw dh k) k)
  | Save =>
      Some (mkContext (canvas k) (current k) (path k) (point k)
                      (current k :: saved k))
  | Restore =>
      match saved k with
      | [] => Some k
      | d :: rest => Some (mkContext (canvas k) d (path k) (point k) rest)
      end
  | SetGlobalAlpha a =>
      (* values outside [0, 1] are ignored *)
      if Qle_bool 0 a && Qle_bool a 1
      then Some (withCurrent (mkDrawState a (clip (current k))) k)
      else Some k
  | BeginPath => Some (withPath [] None k)
  | Rect rx ry rw rh =>
      Some (withPath (path k ++ [RectShape rx ry rw rh])%list (Some (rx, ry)) k)
  | MoveTo mx my => Some (withPath (path k) (Some (mx, my)) k)
  | Arc cx cy r =>
      if Qltb r 0 then None
      else Some (withPath (path k ++ [DiskShape cx cy r])%list (Some (cx + r, cy)) k)
  | Clip =>
      let old := clip (current k) in
      let p := path k in
      Some (withCurrent
              (mkDrawState (globalAlpha (current k))
                           (fun px py => old px py && inPath p px py)) k)
  end.

Fixpoint run (cmds : list Cmd) (k : Context2D) : option Context2D :=
  match cmds with
  | [] => Some k
  | c :: rest =>
      match exec c k with
      | Some k' => run rest k'
      | None => None
      end
  end.

End WithPlatform.

End Canvas2D.

(* ================================================================== *)
(** ** src/components/UploadZone.tsx, second half: the Editor component *)

Module Editor.

Local Open Scope Q_scope.

(** [interface Spot] *)
Record Spot : Type := mkSpot {
  id : string;
  x : Q;          (* Percentage 0-100 *)
  y : Q;          (* Percentage 0-100 *)
  radius : Q      (* Percentage of width *)
}.

Inductive ViewMode : Type := Split | Hold.
Inductive RetouchMode : Type := Auto | Manual.

(** [interface EditorProps], without the two callbacks. *)
Record Props : Type := mkProps {
  originalImage : string;
  processedImage : option string;
  isProcessing : bool
}.

(** The [useState] cells of the component. *)
Record state : Type := mkState {
  intensity : Z;
  viewMode : ViewMode;
  retouchMode : RetouchMode;
  spots : list Spot;
  isHoldingOriginal : bool;
  sliderPosition : Q;
  brushSize : Q;
  aspectRatio : Q;
  cursorPos : option (Q * Q);
  isDraggingSlider : bool
}.

Definition initial : state :=
  mkState 60 Split Auto [] false 50 (5 # 2) 1 None false.

Definition setIntensity (v : Z) (s : state) : state :=
  mkState v (viewMode s) (retouchMode s) (spots s) (isHoldingOriginal s)
          (sliderPosition s) (brushSize s) (aspectRatio s) (cursorPos s)
          (isDraggingSlider s).
Definition setViewMode (v : ViewMode) (s : state) : state :=
  mkState (intensity s) v (retouchMode s) (spots s) (isHoldingOriginal s)
          (sliderPosition s) (brushSize s) (aspectRatio s) (cursorPos s)
          (isDraggingSlider s).
Definition setRetouchMode (v : RetouchMode) (s : state) : state :=
  mkState (intensity s) (viewMode s) v (spots s) (isHoldingOriginal s)
          (sliderPosition s) (brushSize s) (aspectRatio s) (cursorPos s)
          (isDraggingSlider s).
(** [setSpots(prev => f(prev))] *)
Definition setSpots (f : list Spot -> list Spot) (s : state) : state :=
  mkState (intensity s) (viewMode s) (retouchMode s) (f (spots s))
          (isHoldingOriginal s) (sliderPosition s) (brushSize s)
          (aspectRatio s) (cursorPos s) (isDraggingSlider s).
Definition setIsHoldingOriginal (v : bool) (s : state) : state :=
  mkState (intensity s) (viewMode s) (retouchMode s) (spots s) v
          (sliderPosition s) (brushSize s) (aspectRatio s) (cursorPos s)
          (isDraggingSlider s).
Definition setSliderPosition (v : Q) (s : state) : state :=
  mkState (intensity s) (viewMode s) (retouchMode s) (spots s)
          (isHoldingOriginal s) v (brushSize s) (aspectRatio s)
          (cursorPos s) (isDraggingSlider s).
Definition setBrushSize (v : Q) (s : state) : state :=
  mkState (intensity s) (viewMode s) (retouchMode s) (spots s)
          (isHoldingOriginal s) (sliderPosition s) v (aspectRatio s)
          (cursorPos s) (isDraggingSlider s).
Definition setAspectRatio (v : Q) (s : state) : state :=
  mkState (intensity s) (viewMode s) (retouchMode s) (spots s)
          (isHoldingOriginal s) (sliderPosition s) (brushSize s) v
          (cursorPos s) (isDraggingSlider s).
Definition setCursorPos (v : option (Q * Q)) (s : state) : state :=
  mkState (intensity s) (viewMode s) (retouchMode s) (spots s)
          (isHoldingOriginal s) (sliderPosition s) (brushSize s)
          (aspectRatio s) v (isDraggingSlider s).
Definition setIsDraggingSlider (v : bool) (s : state) : state :=
  mkState (intensity s) (viewMode s) (retouchMode s) (spots s)
          (isHoldingOriginal s) (sliderPosition s) (brushSize s)
          (aspectRatio s) (cursorPos s) v.

(** [containerRef.current.getBoundingClientRect()] *)
Module DOMRect.
Record t : Type := mk { left : Q; top : Q; width : Q; height : Q }.
End DOMRect.

(** The part of a mouse event the handlers read.  The two flags say
    whether [e.target.closest('.slider-handle')] and
    [e.target.closest('.spot-remover')] find an element. *)
Record MouseEvent : Type := mkMouseEvent {
  clientX : Q;
  clientY : Q;
  onSliderHandle : bool;
  onSpotRemover : bool
}.

(** -- Image Load -- *)
Definition handleImageLoad (naturalWidth naturalHeight : Z) (s : state) : state :=
  if (0 <? naturalHeight)%Z
  then setAspectRatio (inject_Z naturalWidth / inject_Z naturalHeight) s
  else s.

(** -- Slider Logic -- *)
Definition handleDragStart (s : state) : state := setIsDraggingSlider true s.
Definition handleDragStop (s : state) : state := setIsDraggingSlider false s.

(** [Math.min] and [Math.max] *)
Definition mathMin (a b : Q) : Q := if Qle_bool a b then a else b.
Definition mathMax (a b : Q) : Q := if Qle_bool a b then b else a.

Definition handleSliderMove (container : option DOMRect.t) (pointerX : Q)
    (s : state) : state :=
  match isDraggingSlider s, container with
  | true, Some rect =>
      let px := mathMax 0 (mathMin (pointerX - DOMRect.left rect) (DOMRect.width rect)) in
      let percentage := (px / DOMRect.width rect) * 100 in
      setSliderPosition percentage s
  | _, _ => s
  end.

(** -- Mouse Tracking for Cursor & Spots -- *)
Definition handleMouseMove (container : option DOMRect.t) (e : MouseEvent)
    (s : state) : state :=
  let s :=
    match retouchMode s, container with
    | Manual, Some _ => setCursorPos (Some (clientX e, clientY e)) s
    | _, _ => setCursorPos None s
    end in
  if isDraggingSlider s then handleSliderMove container (clientX e) s else s.

Definition handleMouseLeave (s : state) : state :=
  setIsHoldingOriginal false (setCursorPos None s).

(** -- Spot/Circle Logic --
    [now] is the value [Date.now()] returns while the handler runs. *)
Definition handleImageClick (container : option DOMRect.t) (now : N)
    (e : MouseEvent) (s : state) : state :=
  match retouchMode s, container with
  | Manual, Some rect =>
      if onSliderHandle e || onSpotRemover e then s
      else
        let px := ((clientX e - DOMRect.left rect) / DOMRect.width rect) * 100 in
        let py := ((clientY e - DOMRect.top rect) / DOMRect.height rect) * 100 in
        let newSpot := mkSpot (JS.toString now) px py (brushSize s) in
        setSpots (fun prev => (prev ++ [newSpot])%list) s
  | _, _ => s
  end.

(** [setSpots(prev => prev.filter(s => s.id !== id))] *)
Definition removeSpot (id' : string) (s : state) : state :=
  setSpots (filter (fun sp => negb (String.eqb (id sp) id'))) s.

(** [processedImage && ...] in the JSX: [null] and the empty string
    render nothing. *)
Definition hasProcessed (p : Props) : bool :=
  match processedImage p with
  | Some src => JS.truthy src
  | None => false
  end.

Definition isManual (s : state) : bool :=
  match retouchMode s with Manual => true | Auto => false end.
Definition isHold (s : state) : bool :=
  match viewMode s with Hold => true | Split => false end.

(** The user gestures the component reacts to. *)
Inductive Action : Type :=
| ClickAuto                       (* "Auto (Full)" *)
| ClickManual                     (* "Manual Spots" *)
| ClickSplitPreview               (* "Split Preview" *)
| ClickHoldForOriginal            (* "Hold for Original" *)
| ChangeIntensity (v : Z)         (* intensity range input *)
| ChangeBrushSize (v : Q)         (* brush range input *)
| ClickImage (container : option DOMRect.t) (now : N) (e : MouseEvent)
| ClickSpot (id' : string)        (* click on a spot indicator *)
| ClickClearAll                   (* "Clear All Spots" *)
| PressHold                       (* mouse down on "Hold to see Before" *)
| ReleaseHold
| SliderDown
| PointerUp
| MouseMove (container : option DOMRect.t) (e : MouseEvent)
| MouseLeave
| ImageLoad (naturalWidth naturalHeight : Z).

(** One gesture.  A control that the JSX does not render in the current
    state, or renders [disabled], receives no click. *)
Definition step (p : Props) (s : state) (a : Action) : state :=
  match a with
  | ClickAuto => setViewMode Split (setRetouchMode Auto s)
  | ClickManual => setViewMode Hold (setRetouchMode Manual s)
  | ClickSplitPreview =>
      if hasProcessed p && negb (isManual s) then setViewMode Split s else s
  | ClickHoldForOriginal =>
      if hasProcessed p then setViewMode Hold s else s
  | ChangeIntensity v =>
      if hasProcessed p then setIntensity v s else s
  | ChangeBrushSize v =>
      if isManual s then setBrushSize v s else s
  | ClickImage container now e => handleImageClick container now e s
  | ClickSpot id' =>
      if isManual s then removeSpot id' s else s
  | ClickClearAll =>
      match retouchMode s, spots s with
      | Manual, _ :: _ => setSpots (fun _ => []) s
      | _, _ => s
      end
  | PressHold =>
      if hasProcessed p && isHold s then setIsHoldingOriginal true s else s
  | ReleaseHold =>
      if hasProcessed p && isHold s then setIsHoldingOriginal false s else s
  | SliderDown =>
      if hasProcessed p && negb (isHold s) && negb (isManual s)
      then handleDragStart s else s
  | PointerUp =>
      if isDraggingSlider s then handleDragStop s else s
  | MouseMove container e => handleMouseMove container e s
  | MouseLeave => handleMouseLeave s
  | ImageLoad w h => handleImageLoad w h s
  end.

(** A sequence of gestures, each with the props of the render it
    happened in (the parent may set [processedImage] in between). *)
Definition run (s : state) (acts : list (Props * Action)) : state :=
  fold_left (fun s pa => step (fst pa) s (snd pa)) acts s.

(** What the two range inputs can deliver: [min="0" max="100"] for the
    intensity, [min="0.5" max="8"] for the brush. *)
Definition inputInRange (a : Action) : bool :=
  match a with
  | ChangeIntensity v => ((0 <=? v) && (v <=? 100))%Z
  | ChangeBrushSize v => Qle_bool (1 # 2) v && Qle_bool v 8
  | _ => true
  end.

(** The pointer of a gesture lies on a container of positive size. *)
Definition insideRect (rect : DOMRect.t) (e : MouseEvent) : bool :=
  Canvas2D.Qltb 0 (DOMRect.width rect) && Canvas2D.Qltb 0 (DOMRect.height rect)
  && Qle_bool (DOMRect.left rect) (clientX e)
  && Qle_bool (clientX e) (DOMRect.left rect + DOMRect.width rect)
  && Qle_bool (DOMRect.top rect) (clientY e)
  && Qle_bool (clientY e) (DOMRect.top rect + DOMRect.height rect).

Definition pointerInside (a : Action) : bool :=
  match a with
  | ClickImage (Some rect) _ e => insideRect rect e
  | _ => true
  end.

(** The container of a move has positive width. *)
Definition containerHasWidth (a : Action) : bool :=
  match a with
  | MouseMove (Some rect) _ => Canvas2D.Qltb 0 (DOMRect.width rect)
  | _ => true
  end.

(** The gestures whose handlers call [setSpots]. *)
Definition editsSpots (a : Action) : bool :=
  match a with
  | ClickImage _ _ _ | ClickSpot _ | ClickClearAll => true
  | _ => false
  end.

(** The [Date.now()] readings of the image clicks of a gesture
    sequence, in order. *)
Fixpoint clickTimes (acts : list (Props * Action)) : list N :=
  match acts with
  | [] => []
  | (_, ClickImage _ now _) :: rest => now :: clickTimes rest
  | _ :: rest => clickTimes rest
  end.

(** The coupling of the two mode cells. *)
Definition coupled (s : state) : Prop :=
  retouchMode s = Manual -> viewMode s = Hold.

(** The ids in the store, in order. *)
Definition ids (s : state) : list string := map id (spots s).

(** *** Live preview *)

Record Style : Type := mkStyle { opacity : Q; clipPath : option string }.

(** Generate CSS Mask for visual preview *)
Definition getMaskStyle (s : state) : Style :=
  match retouchMode s with
  | Auto => mkStyle (inject_Z (intensity s) / 100) None
  | Manual =>
      match spots s with
      | [] => mkStyle 0 None
      | _ :: _ => mkStyle (inject_Z (intensity s) / 100) (Some "url(#spot-mask)")
      end
  end.

(** [style={{ opacity: isHoldingOriginal ? 0 : 1 }}] of the wrapping div. *)
Definition overlayOpacity (s : state) : Q :=
  if isHoldingOriginal s then 0 else 1.

(** The children of [<clipPath id="spot-mask"
    clipPathUnits="objectBoundingBox">]. *)
Inductive SvgShape : Type :=
| Ellipse (cx cy rx ry : Q)
| SvgRect (rx0 ry0 rwidth rheight : Q).

(** [<ellipse cx={spot.x / 100} cy={spot.y / 100} rx={spot.radius / 100}
    ry={(spot.radius / 100) * aspectRatio} />] *)
Definition spotEllipse (ratio : Q) (spot : Spot) : SvgShape :=
  Ellipse (x spot / 100) (y spot / 100) (radius spot / 100)
          ((radius spot / 100) * ratio).

Definition spotMask (s : state) : list SvgShape :=
  (map (spotEllipse (aspectRatio s)) (spots s)
   ++ match spots s with
      | [] => [SvgRect 0 0 0 0]
      | _ :: _ => []
      end)%list.

(** Which points of the bounding box a clip-path child covers, in
    [objectBoundingBox] units.  A shape without positive extent
    renders nothing. *)
Definition inSvgShape (sh : SvgShape) (u v : Q) : bool :=
  match sh with
  | Ellipse cx cy rx ry =>
      Canvas2D.Qltb 0 rx && Canvas2D.Qltb 0 ry
      && Canvas2D.Qltb ((u - cx) * (u - cx) * (ry * ry) + (v - cy) * (v - cy) * (rx * rx))
                       (rx * rx * (ry * ry))
  | SvgRect rx0 ry0 rwidth rheight =>
      Canvas2D.Qltb 0 rwidth && Canvas2D.Qltb 0 rheight
      && Canvas2D.between rx0 (rx0 + rwidth) u
      && Canvas2D.between ry0 (ry0 + rheight) v
  end.

(** The preview clip mask seen on a raster of [w] by [h] pixels that
    fills the bounding box: pixel position [(px, py)] is the box point
    [(px / w, py / h)]. *)
Definition previewClip (s : state) (w h : Z) : Canvas2D.Region :=
  fun px py =>
    existsb (fun sh => inSvgShape sh (px / inject_Z w) (py / inject_Z h))
            (spotMask s).

(** *** Download Logic (Single Image Composition) *)

Section Composition.
Import Canvas2D.
Context {P : Platform}.

(** The [<a download>] that is clicked: file name, and the arguments
    and subject of [canvas.toDataURL]. *)
Record Download : Type := mkDownload {
  download : string;
  mimeType : string;
  quality : Q;
  raster : Canvas
}.

(** [new Promise<void>((resolve) => { img.onload = () => resolve();
    img.src = src; })]: only [onload] is wired, so the promise of an
    image that fails to decode never settles. *)
Definition loadImg (src : string) : JS.Promise (Image color) :=
  match decode src with
  | Some img => JS.Fulfilled img
  | None => JS.Pending
  end.

(** [spots.forEach(spot => { ...; ctx.moveTo(x + r, y);
    ctx.arc(x, y, r, 0, Math.PI * 2); })] *)
Definition spotArcs (canvasWidth canvasHeight : Z) (sps : list Spot) : list Cmd :=
  flat_map
    (fun spot =>
       (* Convert % coordinates to pixels *)
       let px := (x spot / 100) * inject_Z canvasWidth in
       let py := (y spot / 100) * inject_Z canvasHeight in
       let r := (radius spot / 100) * inject_Z canvasWidth in
       [MoveTo (px + r) py; Arc px py r])
    sps.

(** 4. Apply Masking (if in manual mode) *)
Definition maskCmds (s : state) (canvasWidth canvasHeight : Z) : list Cmd :=
  match retouchMode s with
  | Auto => []
  | Manual =>
      match spots s with
      | [] =>
          (* If no spots, mask everything (show nothing of processed layer) *)
          [BeginPath; Rect 0 0 0 0; Clip]
      | _ :: _ =>
          (BeginPath :: spotArcs canvasWidth canvasHeight (spots s) ++ [Clip])%list
      end
  end.

(** The closed subpath that the [moveTo]/[arc] pair of one spot adds
    to the current path. *)
Definition spotDisk (canvasWidth canvasHeight : Z) (spot : Spot) : Shape :=
  DiskShape ((x spot / 100) * inject_Z canvasWidth)
            ((y spot / 100) * inject_Z canvasHeight)
            ((radius spot / 100) * inject_Z canvasWidth).

(** The region that the masking step intersects the clip with: the
    whole plane in Auto mode, the filled path in Manual mode. *)
Definition maskRegion (s : state) (canvasWidth canvasHeight : Z) : Region :=
  match retouchMode s with
  | Auto => fun _ _ => true
  | Manual =>
      inPath match spots s with
             | [] => [RectShape 0 0 0 0]
             | _ :: _ => map (spotDisk canvasWidth canvasHeight) (spots s)
             end
  end.

(** The clip region in force when the processed layer is drawn on a
    canvas of the given size ([None] when a path call throws). *)
Definition exportClip (s : state) (canvasWidth canvasHeight : Z) : option Region :=
  match run (maskCmds s canvasWidth canvasHeight)
            (freshContext (blank canvasWidth canvasHeight)) with
  | Some k => Some (clip (current k))
  | None => None
  end.

(** 1. Draw Original Background *)
Definition baseCmds (imgOriginal : Image color) : list Cmd :=
  [DrawImage imgOriginal 0 0].

Definition drawing (s : state) (imgOriginal imgProcessed : Image color)
    (canvasWidth canvasHeight : Z) : list Cmd :=
  (baseCmds imgOriginal
   ++ [Save; SetGlobalAlpha (inject_Z (intensity s) / 100)]
   ++ maskCmds s canvasWidth canvasHeight
   ++ [DrawImageScaled imgProcessed 0 0
         (inject_Z canvasWidth) (inject_Z canvasHeight);
       Restore])%list.

(** The callback given to [Promise.all(...).then]. *)
Definition compose (s : state) (imgs : Image color * Image color)
    : JS.Outcome (option Download) :=
  let imgOriginal := fst imgs in
  let imgProcessed := snd imgs in
  (* Set canvas to natural resolution *)
  let cv := blank (naturalWidth imgOriginal) (naturalHeight imgOriginal) in
  if negb getContext2d then JS.Returns None
  else
    match run (drawing s imgOriginal imgProcessed (width cv) (height cv))
              (freshContext cv) with
    | None => JS.Raises "IndexSizeError"
    | Some k =>
        JS.Returns
          (Some (mkDownload "dermafix-retouched.jpg" "image/jpeg"
                            (92 # 100) (canvas k)))
    end.

(** What one call of [handleDownload] sets off: the [img.src]
    assignments, in order, and the promise chain. *)
Record ExportRun : Type := mkExportRun {
  loads : list string;
  completion : JS.Promise (option Download)
}.

(** [None]: the handler returned at [if (!processedImage) return;]. *)
Definition handleDownload (p : Props) (s : state) : option ExportRun :=
  match processedImage p with
  | None => None
  | Some processed =>
      if negb (JS.truthy processed) then None
      else
        Some (mkExportRun
                [originalImage p; processed]
                (JS.andThen
                   (JS.all2 (loadImg (originalImage p)) (loadImg processed))
                   (compose s)))
  end.

End Composition.

End Editor.

(* ================================================================== *)
(** ** The page as a whole: [App] state, the mounted [Editor], and the
    files handed to the user *)

Module Session.
Import Canvas2D.

Section WithPlatform.
Context {P : Platform}.

Record state : Type := mk {
  app : App.state;
  editor : Editor.state;
  files : list Editor.Download
}.

(** [<Editor ... />] is rendered only while [originalImage] is set. *)
Definition editorProps (a : App.state) : option Editor.Props :=
  match App.originalImage a with
  | Some original =>
      if JS.truthy original
      then Some (Editor.mkProps original (App.processedImage a) (App.isProcessing a))
      else None
  | None => None
  end.

(** A click on "Download Image", observed once the event loop is idle.
    The only message banner of the page shows [App.error], which the
    Editor has no way to write. *)
Definition clickDownload (ss : state) : state :=
  match editorProps (app ss) with
  | None => ss
  | Some p =>
      match Editor.handleDownload p (editor ss) with
      | Some r =>
          match Editor.completion r with
          | JS.Fulfilled (Some d) => mk (app ss) (editor ss) (files ss ++ [d])%list
          | _ => ss
          end
      | None => ss
      end
  end.

End WithPlatform.

(** A small concrete browser: one-bit colours, opaque painting,
    nearest-neighbour sampling; every non-empty source except ["broken"]
    decodes to a 4 by 2 checkerboard. *)
Definition sampleImage : Image bool :=
  mkImage 4 2 (fun i j => Z.even (i + j)).

Definition samplePlatform : Platform :=
  mkPlatform bool false
    (fun _ src _ => src)
    (fun img sx sy => texel img (Qfloor sx) (Qfloor sy))
    (fun src =>
       if String.eqb src "broken" || negb (JS.truthy src) then None
       else Some sampleImage)
    true.

End Session.

(* ================================================================== *)
(** ** The page over time: events interleaved with the settlement of
    file reads and retouch calls *)

Module Page.
Import GeminiService.

Record state : Type := mk {
  app : App.state;
  (** the cells of the mounted [Editor]; [None] while the drop zone is
      shown instead *)
  editor : option Editor.state;
  (** [fileToBase64] promises not yet settled *)
  reads : list App.File;
  (** [processFaceImage] calls not yet settled *)
  calls : list App.Request
}.

Definition initial : state := mk App.initial None [] [].

(** [{!originalImage ? <UploadZone/> : <Editor/>}]: an Editor that
    appears starts from its [useState] defaults, one that stays keeps its
    cells, one that disappears loses them. *)
Definition render (a : App.state) (e : option Editor.state) : option Editor.state :=
  match Session.editorProps a with
  | Some _ => match e with
              | Some cells => Some cells
              | None => Some Editor.initial
              end
  | None => None
  end.

Fixpoint removeNth {A} (n : nat) (l : list A) : list A :=
  match l, n with
  | [], _ => []
  | _ :: rest, O => rest
  | a :: rest, S m => a :: removeNth m rest
  end.

Inductive Event : Type :=
| Drop (files : list UploadZone.DroppedFile)
| FileInput (files : list UploadZone.DroppedFile)
| ReadSettles (n : nat)                       (* the n-th pending read *)
| ClickGenerate                               (* "Generate Retouch" *)
| CallSettles (n : nat) (remote : RemoteOutcome)  (* the n-th pending call *)
| ClickClose                                  (* "Close" *)
| Gesture (a : Editor.Action).

(** [onImageSelected(file)] *)
Definition selectImage (file : App.File) (pg : state) : state :=
  let a := fst (App.beginImageSelected file (app pg)) in
  let started := snd (App.beginImageSelected file (app pg)) in
  mk a (render a (editor pg))
     (if started then reads pg ++ [file] else reads pg)%list
     (calls pg).

(** One event.  The drop zone exists only while no Editor is shown and
    its [input] is [disabled] while [isProcessing]; "Generate Retouch"
    exists only in the Editor while [processedImage] is falsy and is
    [disabled] while [isProcessing]. *)
Definition step (pg : state) (ev : Event) : state :=
  match ev with
  | Drop files =>
      match Session.editorProps (app pg), snd (UploadZone.handleDrop files) with
      | None, Some file => selectImage file pg
      | _, _ => pg
      end
  | FileInput files =>
      match Session.editorProps (app pg), UploadZone.handleFileInput files with
      | None, Some file =>
          if App.isProcessing (app pg) then pg else selectImage file pg
      | _, _ => pg
      end
  | ReadSettles n =>
      match nth_error (reads pg) n with
      | Some file =>
          let a := App.settleImageSelected file (app pg) in
          mk a (render a (editor pg)) (removeNth n (reads pg)) (calls pg)
      | None => pg
      end
  | ClickGenerate =>
      match Session.editorProps (app pg) with
      | Some p =>
          if Editor.hasProcessed p || App.isProcessing (app pg) then pg
          else
            match App.beginProcessImage (app pg) with
            | (a, Some req) => mk a (render a (editor pg)) (reads pg) (calls pg ++ [req])%list
            | (a, None) => mk a (render a (editor pg)) (reads pg) (calls pg)
            end
      | None => pg
      end
  | CallSettles n remote =>
      match nth_error (calls pg) n with
      | Some req =>
          let a := App.settleProcessImage req remote (app pg) in
          mk a (render a (editor pg)) (reads pg) (removeNth n (calls pg))
      | None => pg
      end
  | ClickClose =>
      match Session.editorProps (app pg) with
      | Some _ =>
          let a := App.handleReset (app pg) in
          mk a (render a (editor pg)) (reads pg) (calls pg)
      | None => pg
      end
  | Gesture g =>
      match Session.editorProps (app pg), editor pg with
      | Some p, Some cells =>
          mk (app pg) (Some (Editor.step p cells g)) (reads pg) (calls pg)
      | _, _ => pg
      end
  end.

Definition run (pg : state) (evs : list Event) : state :=
  fold_left step evs pg.

(** Either no retouch call is in flight and the busy flag is down, or
    exactly one is and the flag is up. *)
Definition oneCallAtMost (pg : state) : Prop :=
  (calls pg = [] /\ App.isProcessing (app pg) = false)
  \/ (exists req, calls pg = [req] /\ App.isProcessing (app pg) = true).

End Page.

(* ================================================================== *)
(** * Properties *)

(** ** Data URLs *)

Example getMimeType_jpeg :
  ImageHelpers.getMimeType "data:image/jpeg;base64,/9j/4AAQ" = "image/jpeg".
Proof. reflexivity. Qed.

Example getBase64Data_jpeg :
  ImageHelpers.getBase64Data "data:image/jpeg;base64,/9j/4AAQ" = Some "/9j/4AAQ".
Proof. reflexivity. Qed.

Example toString_0 : JS.toString 0 = "0". Proof. reflexivity. Qed.
Example toString_1700 : JS.toString 1700000000123 = "1700000000123". Proof. reflexivity. Qed.
Example substring_swap : JS.substring "abcdef" 4 1 = "bcd". Proof. reflexivity. Qed.
Example mime_no_semicolon : ImageHelpers.getMimeType "data:abc" = "data:". Proof. reflexivity. Qed.

Section DataUrl.
Import JS ImageHelpers.

Lemma length_append (a b : string) :
  String.length (a ++ b) = (String.length a + String.length b)%nat.
Proof. induction a as [|c a IH]; simpl; [reflexivity | now rewrite IH]. Qed.

Lemma append_assoc' (a b c : string) : (a ++ b) ++ c = a ++ b ++ c.
Proof. induction a as [|x a IH]; simpl; [reflexivity | now rewrite IH]. Qed.

Lemma indexOfFrom_skip (c : ascii) (pre rest : string) (i : Z) :
  includes pre c = false ->
  indexOfFrom c (pre ++ rest) i
  = indexOfFrom c rest (i + Z.of_nat (String.length pre)).
Proof.
  revert i; induction pre as [|a pre IH]; intros i Hno; simpl in *.
  - f_equal; lia.
  - apply orb_false_elim in Hno as [Ha Hpre].
    rewrite Ha, (IH _ Hpre). f_equal; lia.
Qed.

Lemma indexOf_at (c : ascii) (pre rest : string) :
  includes pre c = false ->
  indexOf (pre ++ String c rest) c = Z.of_nat (String.length pre).
Proof.
  intros Hno. unfold indexOf. rewrite (indexOfFrom_skip _ _ _ _ Hno).
  simpl. now rewrite Ascii.eqb_refl.
Qed.

Lemma substring_prefix (pre rest : string) :
  String.substring 0 (String.length pre) (pre ++ rest) = pre.
Proof. induction pre as [|a pre IH]; simpl; [now destruct rest | now rewrite IH]. Qed.

Lemma substring_drop (pre rest : string) (n : nat) :
  String.substring (String.length pre) n (pre ++ rest) = String.substring 0 n rest.
Proof. induction pre as [|a pre IH]; simpl; [reflexivity | exact IH]. Qed.

Lemma split_no_separator (sep : ascii) (s : string) :
  includes s sep = false -> split sep s = [s].
Proof.
  induction s as [|a s IH]; simpl; intros Hno; [reflexivity|].
  apply orb_false_elim in Hno as [Ha Hs]. now rewrite Ha, (IH Hs).
Qed.

Lemma split_at_separator (sep : ascii) (pre rest : string) :
  includes pre sep = false ->
  split sep (pre ++ String sep rest) = pre :: split sep rest.
Proof.
  induction pre as [|a pre IH]; simpl; intros Hno.
  - now rewrite Ascii.eqb_refl.
  - apply orb_false_elim in Hno as [Ha Hpre]. now rewrite Ha, (IH Hpre).
Qed.

Lemma includes_append (a b : string) (c : ascii) :
  includes (a ++ b) c = includes a c || includes b c.
Proof.
  induction a as [|x a IH]; simpl; [reflexivity|].
  now rewrite IH, orb_assoc.
Qed.

Lemma base64_has_no_comma (d : string) :
  isBase64 d = true -> includes d "," = false.
Proof.
  induction d as [|c d IH]; simpl; intros H; [reflexivity|].
  apply andb_prop in H as [Hc Hd]. rewrite (IH Hd), orb_false_r.
  destruct (Ascii.eqb_spec c ","); [subst c; discriminate Hc | reflexivity].
Qed.

(** [getMimeType] reads back the mime type of a data URL. *)
Lemma getMimeType_dataUrl (m d : string) :
  includes m ":" = false -> includes m ";" = false ->
  getMimeType (dataUrl m d) = m.
Proof.
  intros Hcolon Hsemi. unfold getMimeType, dataUrl.
  change ("data:" ++ m ++ ";base64," ++ d)
    with ("data" ++ String ":" (m ++ ";base64," ++ d)) at 2.
  rewrite indexOf_at by reflexivity.
  replace ("data:" ++ m ++ ";base64," ++ d)
    with (("data:" ++ m) ++ String ";" ("base64," ++ d)) at 2
    by (now rewrite append_assoc').
  rewrite indexOf_at by (rewrite includes_append, Hsemi; reflexivity).
  unfold substring, clampIndex.
  rewrite !length_append. cbn [String.length].
  set (n := String.length m). set (k := String.length d).
  assert (E1 : Z.min (Z.max (Z.of_nat 4 + 1) 0) (Z.of_nat (5 + (n + (8 + k)))) = 5) by lia.
  assert (E2 : Z.min (Z.max (Z.of_nat (5 + n)) 0) (Z.of_nat (5 + (n + (8 + k))))
    = 5 + Z.of_nat n) by lia.
  rewrite E1, E2.
  replace (Z.to_nat (Z.min 5 (5 + Z.of_nat n))) with 5%nat by lia.
  replace (Z.to_nat (Z.max 5 (5 + Z.of_nat n) - Z.min 5 (5 + Z.of_nat n))) with n by lia.
  change 5%nat with (String.length "data:").
  rewrite substring_drop. apply substring_prefix.
Qed.

(** [getBase64Data] reads back the payload when no comma precedes it. *)
Lemma getBase64Data_dataUrl (m d : string) :
  includes m "," = false -> includes d "," = false ->
  getBase64Data (dataUrl m d) = Some d.
Proof.
  intros Hm Hd. unfold getBase64Data, dataUrl.
  replace ("data:" ++ m ++ ";base64," ++ d)
    with (("data:" ++ m ++ ";base64") ++ String "," d)
    by (now rewrite !append_assoc').
  rewrite split_at_separator.
  - now rewrite (split_no_separator _ _ Hd).
  - simpl. rewrite includes_append, Hm. reflexivity.
Qed.

End DataUrl.

(** C10 (as amended).  For a mime type [m] free of [:], [;] and [,] and a
    base64 payload [d], [getMimeType] applied to ["data:" ++ m ++
    ";base64," ++ d] returns [m] and [getBase64Data] returns [d]; and the
    data URL that [handleProcessImage] builds from a successful result
    carries the mime type of the original unchanged. *)
Theorem C10_data_url_round_trip :
  forall (m d : string),
    JS.includes m ":" = false ->
    JS.includes m ";" = false ->
    JS.includes m "," = false ->
    ImageHelpers.isBase64 d = true ->
    ImageHelpers.getMimeType (ImageHelpers.dataUrl m d) = m
    /\ ImageHelpers.getBase64Data (ImageHelpers.dataUrl m d) = Some d
    /\ forall generateContent st processedData,
         App.originalImage st = Some (ImageHelpers.dataUrl m d) ->
         GeminiService.processFaceImage
           (generateContent (ImageHelpers.getBase64Data (ImageHelpers.dataUrl m d)) m)
         = GeminiService.Return processedData ->
         App.processedImage (App.handleProcessImage generateContent st)
         = Some (ImageHelpers.dataUrl m processedData)
         /\ ImageHelpers.getMimeType (ImageHelpers.dataUrl m processedData) = m.
Proof.
  intros m d Hcolon Hsemi Hcomma Hd.
  pose proof (getMimeType_dataUrl m d Hcolon Hsemi) as Hmime.
  split; [exact Hmime|]. split.
  - apply getBase64Data_dataUrl; [exact Hcomma | now apply base64_has_no_comma].
  - intros generateContent st processedData Horig Hcall.
    split; [| now apply getMimeType_dataUrl].
    unfold App.handleProcessImage. rewrite Horig.
    change (JS.truthy (ImageHelpers.dataUrl m d)) with true. cbn [negb].
    rewrite Hmime. cbv zeta. rewrite Hcall. reflexivity.
Qed.

Lemma C10_data_url_round_trip_witness :
  ImageHelpers.getMimeType "data:image/png;base64,iVBORw0KGgo=" = "image/png"
  /\ ImageHelpers.getBase64Data "data:image/png;base64,iVBORw0KGgo=" = Some "iVBORw0KGgo=".
Proof.
  destruct (C10_data_url_round_trip "image/png" "iVBORw0KGgo="
              eq_refl eq_refl eq_refl eq_refl) as [Hm [Hd _]].
  split; [exact Hm | exact Hd].
Defined.

(** C10 as first stated, with only [:] and [;] excluded from the mime
    type, fails: [split(',')[1]] stops at the first comma, which may lie
    inside the mime type. *)
Lemma C10_comma_in_mime_type :
  ~ (forall (m d : string),
       JS.includes m ":" = false ->
       JS.includes m ";" = false ->
       ImageHelpers.isBase64 d = true ->
       ImageHelpers.getMimeType (ImageHelpers.dataUrl m d) = m
       /\ ImageHelpers.getBase64Data (ImageHelpers.dataUrl m d) = Some d).
Proof.
  intros claim.
  destruct (claim "image/x,y" "QQ==" eq_refl eq_refl eq_refl) as [_ Hdata].
  vm_compute in Hdata. discriminate Hdata.
Qed.

(** ** The generative retouch call *)

Section Retouch.
Import GeminiService.

Lemma firstInlineData_none (ps : list Part) :
  existsb partCarriesImage ps = false -> firstInlineData ps = None.
Proof.
  induction ps as [|p ps IH]; simpl; intros H; [reflexivity|].
  apply orb_false_elim in H as [Hp Hps].
  unfold partCarriesImage in Hp.
  destruct (inlineData p) as [[[d|]]|]; try (now apply IH).
  rewrite Hp. now apply IH.
Qed.

Lemma processFaceImage_fails (remote : RemoteOutcome) :
  callFails remote = true -> exists err, processFaceImage remote = Throw err.
Proof.
  destruct remote as [e|r]; simpl; intros H; [now exists e|].
  apply negb_true_iff in H. unfold carriesImageData in H.
  destruct (candidates r) as [[|c cs]|]; try (now exists noImageData).
  simpl in H. apply orb_false_elim in H as [Hc _].
  unfold candidateCarriesImage in Hc.
  destruct (parts c) as [ps|]; [| now exists typeError].
  rewrite (firstInlineData_none ps Hc). now exists noImageData.
Qed.

Lemma errorText_truthy (err : Error) : JS.truthy (App.errorText err) = true.
Proof.
  unfold App.errorText. destruct (JS.truthy (message err)) eqn:E; [exact E | reflexivity].
Qed.

End Retouch.

(** C9.  When the generative retouch call fails (the remote call throws,
    or its response carries no image data), [handleProcessImage] ends
    with an error message to show, [processedImage] as it was (null when
    it was null), [isProcessing] false and the original image retained. *)
Theorem C9_failed_retouch_keeps_session :
  forall generateContent (st : App.state) (original : string),
    App.originalImage st = Some original ->
    JS.truthy original = true ->
    GeminiService.callFails
      (generateContent (ImageHelpers.getBase64Data original)
                       (ImageHelpers.getMimeType original)) = true ->
    exists msg,
      JS.truthy msg = true
      /\ App.error (App.handleProcessImage generateContent st) = Some msg
      /\ App.processedImage (App.handleProcessImage generateContent st)
         = App.processedImage st
      /\ App.isProcessing (App.handleProcessImage generateContent st) = false
      /\ App.originalImage (App.handleProcessImage generateContent st)
         = Some original.
Proof.
  intros generateContent st original Horig Htruthy Hfail.
  destruct (processFaceImage_fails _ Hfail) as [err Herr].
  exists (App.errorText err).
  unfold App.handleProcessImage. rewrite Horig, Htruthy. cbn [negb].
  cbv zeta. rewrite Herr. cbn.
  repeat split; try reflexivity. apply errorText_truthy.
Qed.

Lemma C9_failed_retouch_keeps_session_witness :
  exists msg,
    JS.truthy msg = true
    /\ App.error
         (App.handleProcessImage
            (fun _ _ => GeminiService.Responds (GeminiService.mkResponse None))
            (App.mkState (Some "data:image/png;base64,QQ==") None false None))
       = Some msg.
Proof.
  destruct (C9_failed_retouch_keeps_session
              (fun _ _ => GeminiService.Responds (GeminiService.mkResponse None))
              (App.mkState (Some "data:image/png;base64,QQ==") None false None)
              "data:image/png;base64,QQ==" eq_refl eq_refl eq_refl)
    as [msg [Ht [He _]]].
  exists msg. split; [exact Ht | exact He].
Defined.

(** ** Blend mode state machine *)

Section Modes.
Import Editor.

Ltac split_cases :=
  repeat match goal with
         | |- context [if ?b then _ else _] => destruct b eqn:?
         | |- context [match ?o with Some _ => _ | None => _ end] => destruct o eqn:?
         | |- context [match ?l with [] => _ | _ :: _ => _ end] => destruct l eqn:?
         | |- context [match retouchMode ?s with Auto => _ | Manual => _ end] =>
             destruct (retouchMode s) eqn:?
         end.

(** Apart from the two mode buttons and the two compare buttons, no
    gesture writes either mode cell. *)
Lemma step_modes (p : Props) (s : state) (a : Action) :
  match a with
  | ClickAuto | ClickManual | ClickSplitPreview | ClickHoldForOriginal => True
  | _ => retouchMode (step p s a) = retouchMode s
         /\ viewMode (step p s a) = viewMode s
  end.
Proof.
  destruct a; try exact I;
    unfold step, handleImageClick, removeSpot, handleMouseMove,
           handleSliderMove, handleMouseLeave, handleImageLoad,
           handleDragStart, handleDragStop;
    cbn [isDraggingSlider setCursorPos];
    split_cases; split; cbn; congruence.
Qed.

Lemma step_coupled (p : Props) (s : state) (a : Action) :
  coupled s -> coupled (step p s a).
Proof.
  unfold coupled. intros Hs.
  pose proof (step_modes p s a) as Hm.
  destruct a.
  1: cbn; discriminate.
  1: cbn; reflexivity.
  1: unfold step, isManual;
     destruct (hasProcessed p); destruct (retouchMode s) eqn:Hr; cbn;
     rewrite ?Hr; try discriminate; intros H; apply Hs; exact H.
  1: unfold step; destruct (hasProcessed p); cbn; [reflexivity | exact Hs].
  all: destruct Hm as [Hr Hv]; rewrite Hr, Hv; exact Hs.
Qed.

Lemma run_coupled (acts : list (Props * Action)) (s : state) :
  coupled s -> coupled (run s acts).
Proof.
  revert s. induction acts as [|[p a] acts IH]; intros s Hs; [exact Hs|].
  apply IH. now apply step_coupled.
Qed.

End Modes.

(** C1.  After any sequence of gestures, started from the initial
    state: if [retouchMode] is Manual then [viewMode] is Hold; and from
    there the Manual button yields Manual/Hold and the Auto button yields
    Auto/Split. *)
Theorem C1_manual_implies_hold :
  forall (acts : list (Editor.Props * Editor.Action)) (p : Editor.Props),
    (Editor.retouchMode (Editor.run Editor.initial acts) = Editor.Manual ->
     Editor.viewMode (Editor.run Editor.initial acts) = Editor.Hold)
    /\ Editor.retouchMode
         (Editor.step p (Editor.run Editor.initial acts) Editor.ClickManual)
       = Editor.Manual
    /\ Editor.viewMode
         (Editor.step p (Editor.run Editor.initial acts) Editor.ClickManual)
       = Editor.Hold
    /\ Editor.retouchMode
         (Editor.step p (Editor.run Editor.initial acts) Editor.ClickAuto)
       = Editor.Auto
    /\ Editor.viewMode
         (Editor.step p (Editor.run Editor.initial acts) Editor.ClickAuto)
       = Editor.Split.
Proof.
  intros acts p. split; [| repeat split].
  apply (run_coupled acts Editor.initial). intros H; discriminate H.
Qed.

Lemma C1_manual_implies_hold_witness :
  Editor.viewMode
    (Editor.run Editor.initial
       [(Editor.mkProps "o" (Some "p") false, Editor.ClickManual);
        (Editor.mkProps "o" (Some "p") false, Editor.ClickSplitPreview)])
  = Editor.Hold.
Proof.
  exact (proj1 (C1_manual_implies_hold
                  [(Editor.mkProps "o" (Some "p") false, Editor.ClickManual);
                   (Editor.mkProps "o" (Some "p") false, Editor.ClickSplitPreview)]
                  (Editor.mkProps "o" (Some "p") false))
               eq_refl).
Defined.

(** ** Live preview *)

(** C2.  In Manual mode with an empty spot set the processed layer's
    derived style has opacity 0 and no clip path, whatever the intensity. *)
Theorem C2_manual_without_spots_is_hidden :
  forall (s : Editor.state) (v : Z),
    Editor.retouchMode s = Editor.Manual ->
    Editor.spots s = [] ->
    Editor.opacity (Editor.getMaskStyle (Editor.setIntensity v s)) = 0%Q
    /\ Editor.clipPath (Editor.getMaskStyle (Editor.setIntensity v s)) = None
    /\ Editor.opacity (Editor.getMaskStyle s) = 0%Q.
Proof.
  intros s v Hmode Hspots. unfold Editor.getMaskStyle.
  cbn [Editor.setIntensity Editor.retouchMode Editor.spots].
  rewrite Hmode, Hspots. repeat split.
Qed.

Lemma C2_manual_without_spots_is_hidden_witness :
  Editor.opacity
    (Editor.getMaskStyle
       (Editor.setIntensity 100
          (Editor.step (Editor.mkProps "o" (Some "p") false)
                       Editor.initial Editor.ClickManual)))
  = 0%Q.
Proof.
  apply (C2_manual_without_spots_is_hidden
           (Editor.step (Editor.mkProps "o" (Some "p") false)
                        Editor.initial Editor.ClickManual)
           100 eq_refl eq_refl).
Defined.

(** ** Spot mask store *)

Section SpotStore.
Import Editor.

Lemma toString_inj (a b : N) : JS.toString a = JS.toString b -> a = b.
Proof.
  unfold JS.toString. intros H.
  apply DecimalN.Unsigned.to_uint_inj.
  apply (f_equal NilEmpty.uint_of_string) in H.
  rewrite !NilEmpty.usu in H. now injection H.
Qed.

Lemma filter_other_ids (i : string) (sps : list Spot) :
  ~ In i (map id sps) ->
  filter (fun sp => negb (String.eqb (id sp) i)) sps = sps.
Proof.
  induction sps as [|sp sps IH]; simpl; intros Hnot; [reflexivity|].
  destruct (String.eqb_spec (id sp) i) as [E|_]; simpl.
  - exfalso. apply Hnot. now left.
  - f_equal. apply IH. intros Hin. apply Hnot. now right.
Qed.

(** Adding a spot whose id no stored spot carries, then removing that
    id, gives the store back, order included. *)
Lemma add_then_remove_fresh (rect : DOMRect.t) (now : N) (e : MouseEvent) (s : state) :
  ~ In (JS.toString now) (ids s) ->
  spots (removeSpot (JS.toString now) (handleImageClick (Some rect) now e s))
  = spots s.
Proof.
  intros Hfresh. unfold handleImageClick, removeSpot.
  destruct (retouchMode s); [now apply filter_other_ids|].
  destruct (onSliderHandle e || onSpotRemover e); [now apply filter_other_ids|].
  cbn [setSpots spots]. rewrite filter_app. cbn [filter id].
  rewrite String.eqb_refl. cbn [negb].
  rewrite app_nil_r. now apply filter_other_ids.
Qed.

Lemma handleImageClick_fresh_NoDup (c : option DOMRect.t) (now : N)
    (e : MouseEvent) (s : state) :
  NoDup (ids s) -> ~ In (JS.toString now) (ids s) ->
  NoDup (ids (handleImageClick c now e s)).
Proof.
  intros Hnd Hfresh. unfold handleImageClick.
  destruct (retouchMode s); [exact Hnd|].
  destruct c as [rect|]; [|exact Hnd].
  destruct (onSliderHandle e || onSpotRemover e); [exact Hnd|].
  unfold ids. cbn [setSpots spots]. rewrite map_app. cbn [map id].
  apply NoDup_app; [exact Hnd | repeat constructor; intros [] | ].
  intros i Hi [<-|[]]. now apply Hfresh.
Qed.

Lemma removeSpot_NoDup (i : string) (s : state) :
  NoDup (ids s) -> NoDup (ids (removeSpot i s)).
Proof.
  unfold ids, removeSpot. cbn [setSpots spots].
  induction (spots s) as [|sp sps IH]; simpl; intros Hnd; [constructor|].
  inversion Hnd as [|? ? Hnotin Hrest]; subst.
  destruct (negb (String.eqb (id sp) i)); [|now apply IH].
  simpl. constructor; [|now apply IH].
  intros Hin. apply Hnotin. apply in_map_iff in Hin as [sp' [E Hin]].
  apply filter_In in Hin as [Hin _]. apply in_map_iff. now exists sp'.
Qed.

End SpotStore.

(** C8 at its failing input: two clicks on the image while [Date.now()]
    reads 1000 both times leave two spots that share the id ["1000"]. *)
Theorem C8_same_millisecond_shares_id :
  let p := Editor.mkProps "o" (Some "p") false in
  let rect := Some (Editor.DOMRect.mk 0 0 200 100) in
  let s := Editor.run Editor.initial
             [(p, Editor.ClickManual);
              (p, Editor.ClickImage rect 1000 (Editor.mkMouseEvent 20 30 false false));
              (p, Editor.ClickImage rect 1000 (Editor.mkMouseEvent 120 60 false false))] in
  map Editor.id (Editor.spots s) = ["1000"; "1000"]
  /\ ~ NoDup (map Editor.id (Editor.spots s)).
Proof.
  cbv zeta. split; [reflexivity|].
  intros Hnd. inversion Hnd as [|i l Hnotin _]. apply Hnotin. now left.
Qed.

(** C7 at its failing input: a store holding one spot whose id is
    ["1000"]; a second spot added while [Date.now()] still reads 1000 and
    then removed by its id takes the first spot with it. *)
Theorem C7_remove_after_add_empties_store :
  let p := Editor.mkProps "o" (Some "p") false in
  let rect := Some (Editor.DOMRect.mk 0 0 200 100) in
  let before := Editor.run Editor.initial
                  [(p, Editor.ClickManual);
                   (p, Editor.ClickImage rect 1000 (Editor.mkMouseEvent 20 30 false false))] in
  let added := Editor.handleImageClick rect 1000
                 (Editor.mkMouseEvent 120 60 false false) before in
  let after := Editor.removeSpot (JS.toString 1000) added in
  List.length (Editor.spots before) = 1%nat
  /\ List.length (Editor.spots added) = 2%nat
  /\ Editor.spots after = []
  /\ ~ (forall sp, In sp (Editor.spots before) <-> In sp (Editor.spots after)).
Proof.
  cbv zeta. split; [reflexivity|]. split; [reflexivity|]. split; [reflexivity|].
  intros Hsame.
  apply (proj1 (Hsame (Editor.mkSpot "1000" (20 / 200 * 100) (30 / 100 * 100) (5 # 2)))).
  left. reflexivity.
Qed.

(** ** Canvas mechanics *)

Section CanvasFacts.
Import Canvas2D.
Context {P : Platform}.

Lemma run_app (a b : list Cmd) (k : Context2D) :
  run (a ++ b) k = match run a k with
                   | Some k' => run b k'
                   | None => None
                   end.
Proof.
  revert k; induction a as [|c a IH]; intros k; simpl; [reflexivity|].
  destruct (exec c k); [apply IH | reflexivity].
Qed.

(** No context call resizes the canvas. *)
Lemma exec_size (c : Cmd) (k k' : Context2D) :
  exec c k = Some k' ->
  width (canvas k') = width (canvas k) /\ height (canvas k') = height (canvas k).
Proof.
  destruct c; simpl; intros H;
    repeat match type of H with
           | (if ?b then _ else _) = _ => destruct b
           | match ?l with [] => _ | _ :: _ => _ end = _ => destruct l
           end;
    inversion H; subst; simpl; auto.
Qed.

Lemma run_size (cmds : list Cmd) (k k' : Context2D) :
  run cmds k = Some k' ->
  width (canvas k') = width (canvas k) /\ height (canvas k') = height (canvas k).
Proof.
  revert k; induction cmds as [|c cmds IH]; simpl; intros k H.
  - inversion H; auto.
  - destruct (exec c k) as [k1|] eqn:E; [|discriminate].
    destruct (exec_size _ _ _ E) as [Hw Hh].
    destruct (IH _ H) as [Hw' Hh']. split; congruence.
Qed.

Lemma Qltb_iff (a b : Q) : Qltb a b = true <-> (a < b)%Q.
Proof.
  unfold Qltb. rewrite negb_true_iff. split.
  - intros H. apply Qnot_le_lt. intros Hle.
    apply Qle_bool_iff in Hle. congruence.
  - intros H. destruct (Qle_bool b a) eqn:E; [|reflexivity].
    apply Qle_bool_iff in E. exfalso. now apply (Qlt_not_le a b).
Qed.

Lemma Qltb_irrefl (a : Q) : Qltb a a = false.
Proof.
  destruct (Qltb a a) eqn:E; [|reflexivity].
  apply Qltb_iff in E. exfalso. now apply (Qlt_irrefl a).
Qed.

Lemma bool_eq_iff (a b : bool) : (a = true <-> b = true) -> a = b.
Proof.
  destruct a, b; intros [H1 H2]; try reflexivity;
    [symmetry; apply H1 | apply H2]; reflexivity.
Qed.

(** A zero-sized rectangle holds no point. *)
Lemma between_empty (a p : Q) : between a (a + 0) p = false.
Proof.
  unfold between. apply bool_eq_iff. split; [|discriminate].
  rewrite orb_true_iff, !andb_true_iff, !Qltb_iff, !Qle_bool_iff.
  intros [[H1 H2]|[H1 H2]]; exfalso; lra.
Qed.

(** The centre of a pixel inside a raster of extent [n] lies between
    the edges of the rectangle from 0 to [n]. *)
Lemma between_centre (n i : Z) :
  (0 <= i < n)%Z -> between 0 (0 + inject_Z n) (centre i) = true.
Proof.
  intros [Hlo Hhi]. unfold between, centre.
  apply orb_true_iff. left. rewrite andb_true_iff, Qltb_iff, Qle_bool_iff.
  assert (0 <= inject_Z i)%Q by (change 0%Q with (inject_Z 0); now rewrite <- Zle_Qle).
  assert (inject_Z i + 1 <= inject_Z n)%Q.
  { change 1%Q with (inject_Z 1). rewrite <- inject_Z_plus, <- Zle_Qle. lia. }
  split; lra.
Qed.

End CanvasFacts.

(** ** Export composition *)

Section ExportFacts.
Import Canvas2D Editor.
Context {P : Platform}.

Local Open Scope Q_scope.

Lemma spotArcs_run (w h : Z) (sps : list Spot) (k : Context2D) :
  (0 <= w)%Z ->
  Forall (fun sp => 0 <= radius sp) sps ->
  exists k',
    Canvas2D.run (spotArcs w h sps) k = Some k'
    /\ canvas k' = canvas k /\ current k' = current k /\ saved k' = saved k
    /\ path k' = (path k ++ map (spotDisk w h) sps)%list.
Proof.
  intros Hw Hall. revert k.
  induction Hall as [|sp sps Hsp _ IH]; intros k.
  - exists k. simpl. rewrite app_nil_r. repeat split.
  - cbn [spotArcs flat_map app]. cbn [Canvas2D.run exec].
    assert (Hr : Qltb (radius sp / 100 * inject_Z w) 0 = false).
    { destruct (Qltb (radius sp / 100 * inject_Z w) 0) eqn:E; [|reflexivity].
      apply Qltb_iff in E. exfalso.
      assert (0 <= inject_Z w) by (change 0 with (inject_Z 0); now rewrite <- Zle_Qle).
      assert (0 <= radius sp / 100) by (apply Qle_shift_div_l; lra).
      assert (0 <= radius sp / 100 * inject_Z w) by (now apply Qmult_le_0_compat).
      lra. }
    rewrite Hr.
    match goal with |- context [Canvas2D.run _ ?k1] => destruct (IH k1) as (k' & Hrun & Hc & Hcur & Hs & Hp) end.
    exists k'. fold (spotArcs w h sps). rewrite Hrun.
    repeat split; try assumption.
    rewrite Hp. cbn [path withPath]. rewrite <- app_assoc. reflexivity.
Qed.

(** One spot: the pixel-space disk of the export and the box-space
    ellipse of the preview cover the same points of a raster whose
    aspect ratio the ellipse was built with. *)
Lemma disk_matches_ellipse (w h : Z) (spot : Spot) (px py : Q) :
  (0 < w)%Z -> (0 < h)%Z -> 0 <= radius spot ->
  inShape (spotDisk w h spot) px py
  = inSvgShape (spotEllipse (inject_Z w / inject_Z h) spot)
               (px / inject_Z w) (py / inject_Z h).
Proof.
  intros Hw Hh Hr.
  assert (Hw' : 0 < inject_Z w) by (change 0 with (inject_Z 0); now rewrite <- Zlt_Qlt).
  assert (Hh' : 0 < inject_Z h) by (change 0 with (inject_Z 0); now rewrite <- Zlt_Qlt).
  set (W := inject_Z w) in *. set (H := inject_Z h) in *.
  unfold spotDisk, spotEllipse, inShape, inSvgShape. fold W H.
  set (k := radius spot / 100).
  assert (Hk : 0 <= k) by (apply Qle_shift_div_l; lra).
  apply bool_eq_iff.
  rewrite !andb_true_iff, !Qltb_iff.
  set (d2 := (px - x spot / 100 * W) * (px - x spot / 100 * W)
             + (py - y spot / 100 * H) * (py - y spot / 100 * H)).
  assert (E1 : (px / W - x spot / 100) * (px / W - x spot / 100) * (k * (W / H) * (k * (W / H)))
               + (py / H - y spot / 100) * (py / H - y spot / 100) * (k * k)
               == (k * k / (H * H)) * d2).
  { unfold d2. field. split; lra. }
  assert (E2 : k * k * (k * (W / H) * (k * (W / H))) == (k * k / (H * H)) * (k * W * (k * W))).
  { field. lra. }
  rewrite E1, E2.
  assert (HH : 0 < H * H) by (apply Qmult_lt_0_compat; assumption).
  split.
  - intros Hd.
    assert (Hkpos : 0 < k).
    { destruct (Qlt_le_dec 0 k) as [Hp|Hn]; [exact Hp|].
      assert (Hk0 : k == 0) by lra.
      assert (Hsq : 0 <= d2).
      { unfold d2.
        generalize (px - x spot / 100 * W) (py - y spot / 100 * H).
        intros a b. nra. }
      rewrite Hk0 in Hd. lra. }
    assert (Hc : 0 < k * k / (H * H)).
    { apply Qlt_shift_div_l; [exact HH|]. nra. }
    repeat split.
    + exact Hkpos.
    + apply Qmult_lt_0_compat; [exact Hkpos|]. apply Qlt_shift_div_l; lra.
    + apply Qmult_lt_l; assumption.
  - intros [[Hkpos _] Hlt].
    assert (Hc : 0 < k * k / (H * H)).
    { apply Qlt_shift_div_l; [exact HH|]. nra. }
    now apply Qmult_lt_l in Hlt.
Qed.

End ExportFacts.

Section ExportRuns.
Import Canvas2D Editor.
Context {P : Platform}.

Local Open Scope Q_scope.

(** The masking step never alters the bitmap, the alpha or the save
    stack; it narrows the clip region by [maskRegion]. *)
Lemma maskCmds_run (s : state) (w h : Z) (k : Context2D) :
  (0 <= w)%Z ->
  Forall (fun sp => 0 <= radius sp) (spots s) ->
  exists k',
    Canvas2D.run (maskCmds s w h) k = Some k'
    /\ canvas k' = canvas k
    /\ saved k' = saved k
    /\ globalAlpha (current k') = globalAlpha (current k)
    /\ forall px py,
         clip (current k') px py
         = clip (current k) px py && maskRegion s w h px py.
Proof.
  intros Hw Hall. unfold maskCmds, maskRegion.
  destruct (retouchMode s).
  - exists k. repeat split. intros px py. now rewrite andb_true_r.
  - destruct (spots s) as [|sp sps] eqn:Hsp.
    + eexists. split; [reflexivity|]. repeat split.
    + cbn [Canvas2D.run exec]. rewrite run_app.
      destruct (spotArcs_run w h (sp :: sps) (withPath [] None k) Hw Hall)
        as (k1 & Hrun & Hc & Hcur & Hs & Hp).
      rewrite Hrun. cbn [Canvas2D.run exec].
      eexists. split; [reflexivity|].
      cbn [canvas saved current withCurrent globalAlpha clip].
      rewrite Hc, Hs, Hcur, Hp. repeat split.
Qed.

Lemma alpha_in_range (v : Z) :
  (0 <= v <= 100)%Z ->
  Qle_bool 0 (inject_Z v / 100) && Qle_bool (inject_Z v / 100) 1 = true.
Proof.
  intros [Hlo Hhi].
  assert (0 <= inject_Z v) by (change 0 with (inject_Z 0); now rewrite <- Zle_Qle).
  assert (inject_Z v <= 100) by (change 100 with (inject_Z 100); now rewrite <- Zle_Qle).
  rewrite andb_true_iff, !Qle_bool_iff. split.
  - apply Qle_shift_div_l; lra.
  - apply Qle_shift_div_r; lra.
Qed.

(** The bitmap after the whole drawing sequence, pixel by pixel. *)
Lemma drawing_run (s : state) (imgO imgP : Image color) (w h : Z) :
  (0 <= w)%Z ->
  Forall (fun sp => 0 <= radius sp) (spots s) ->
  (0 <= intensity s <= 100)%Z ->
  exists k base,
    Canvas2D.run (drawing s imgO imgP w h) (freshContext (blank w h)) = Some k
    /\ Canvas2D.run (baseCmds imgO) (freshContext (blank w h)) = Some base
    /\ forall i j,
         pixel (canvas k) i j
         = if between 0 (0 + inject_Z w) (centre i)
              && between 0 (0 + inject_Z h) (centre j)
              && maskRegion s w h (centre i) (centre j)
           then over (inject_Z (intensity s) / 100)
                     (resample imgP
                        ((centre i - 0) * inject_Z (naturalWidth imgP) / inject_Z w)
                        ((centre j - 0) * inject_Z (naturalHeight imgP) / inject_Z h))
                     (pixel (canvas base) i j)
           else pixel (canvas base) i j.
Proof.
  intros Hw Hall Hint. unfold drawing, baseCmds.
  cbn [app Canvas2D.run exec]. rewrite (alpha_in_range _ Hint).
  rewrite run_app.
  match goal with
  | |- context [Canvas2D.run (maskCmds s w h) ?k0] =>
      destruct (maskCmds_run s w h k0 Hw Hall) as (k1 & Hrun & Hc & Hs & Ha & Hclip)
  end.
  rewrite Hrun. cbn [Canvas2D.run exec].
  cbn [saved canvas current withCurrent withCanvas globalAlpha clip freshContext] in Hc, Hs, Ha, Hclip.
  cbn [saved withCanvas]. rewrite Hs.
  eexists. eexists. split; [reflexivity|]. split; [reflexivity|].
  intros i j.
  cbn [canvas withCanvas paint pixel width height blank].
  rewrite Hc, Ha, Hclip. cbn [canvas withCanvas paint pixel width height blank andb].
  reflexivity.
Qed.

End ExportRuns.

Section ExportClaims.
Import Canvas2D Editor.
Context {P : Platform}.

Local Open Scope Q_scope.

Lemma exportClip_region (s : state) (w h : Z) :
  (0 <= w)%Z ->
  Forall (fun sp => 0 <= radius sp) (spots s) ->
  exists region,
    exportClip s w h = Some region
    /\ forall px py, region px py = maskRegion s w h px py.
Proof.
  intros Hw Hall. unfold exportClip.
  destruct (maskCmds_run s w h (freshContext (blank w h)) Hw Hall)
    as (k & Hrun & _ & _ & _ & Hclip).
  rewrite Hrun. eexists. split; [reflexivity|].
  intros px py. now rewrite Hclip.
Qed.

Lemma disks_match_ellipses (w h : Z) (sps : list Spot) (px py : Q) :
  (0 < w)%Z -> (0 < h)%Z ->
  Forall (fun sp => 0 <= radius sp) sps ->
  inPath (map (spotDisk w h) sps) px py
  = existsb (fun sh => inSvgShape sh (px / inject_Z w) (py / inject_Z h))
            (map (spotEllipse (inject_Z w / inject_Z h)) sps).
Proof.
  intros Hw Hh Hall. unfold inPath.
  induction Hall as [|sp sps Hsp _ IH]; [reflexivity|].
  cbn [map existsb]. rewrite IH. f_equal.
  now apply disk_matches_ellipse.
Qed.

(** C3.  For a raster of the original's dimensions [w] by [h] and the
    aspect ratio captured by [handleImageLoad], the clip region that the
    export builds from the spots covers exactly the points that the
    preview's clip mask covers once box units are mapped to pixels; and
    one spot at (50, 50, 10) on a square image clips to the disk around
    the midpoint with a radius of a tenth of the width. *)
Theorem C3_export_clip_matches_preview_mask :
  forall (s : state) (w h : Z),
    (0 < w)%Z -> (0 < h)%Z ->
    retouchMode s = Manual ->
    Forall (fun sp => 0 <= radius sp) (spots s) ->
    (exists region,
        exportClip (handleImageLoad w h s) w h = Some region
        /\ forall px py,
             region px py = previewClip (handleImageLoad w h s) w h px py)
    /\ (forall i,
          spots s = [mkSpot i 50 50 10] ->
          exists region,
            exportClip s w w = Some region
            /\ forall px py,
                 region px py
                 = inShape (DiskShape (inject_Z w / 2) (inject_Z w / 2)
                                      (inject_Z w / 10)) px py).
Proof.
  intros s w h Hw Hh Hmode Hall. split.
  - unfold handleImageLoad. rewrite (proj2 (Z.ltb_lt 0 h) Hh).
    set (s' := setAspectRatio (inject_Z w / inject_Z h) s).
    assert (Hall' : Forall (fun sp => 0 <= radius sp) (spots s')) by exact Hall.
    destruct (exportClip_region s' w h (Z.lt_le_incl _ _ Hw) Hall')
      as (region & Hregion & Hpoints).
    exists region. split; [exact Hregion|].
    intros px py. rewrite Hpoints.
    unfold maskRegion, previewClip, spotMask.
    change (retouchMode s') with (retouchMode s).
    change (spots s') with (spots s).
    change (aspectRatio s') with (inject_Z w / inject_Z h).
    rewrite Hmode. destruct (spots s) as [|sp sps] eqn:Hsp.
    + cbn [map app existsb inPath inShape inSvgShape].
      rewrite between_empty, Qltb_irrefl. reflexivity.
    + rewrite app_nil_r. now apply disks_match_ellipses.
  - intros i Hspots.
    destruct (exportClip_region s w w (Z.lt_le_incl _ _ Hw) Hall)
      as (region & Hregion & Hpoints).
    exists region. split; [exact Hregion|].
    intros px py. rewrite Hpoints. unfold maskRegion.
    rewrite Hmode, Hspots.
    cbn [map inPath existsb spotDisk inShape x y radius].
    rewrite orb_false_r. apply bool_eq_iff. rewrite !Qltb_iff.
    assert (Ec : 50 / 100 * inject_Z w == inject_Z w / 2) by field.
    assert (Er : 10 / 100 * inject_Z w == inject_Z w / 10) by field.
    rewrite Ec, Er. reflexivity.
Qed.

(** C4.  When both images decode, the export completes with a raster
    whose width and height are the natural width and height of the
    original, whatever the size of the processed image; inside it, every
    pixel that the clip region admits is the base layer blended with the
    processed image sampled at the pixel's position scaled by (processed
    width / raster width) horizontally and (processed height / raster
    height) vertically, and every other pixel is the base layer. *)
Theorem C4_export_has_original_dimensions :
  forall (s : state) (p : Props) (processed : string)
         (imgOriginal imgProcessed : Image color),
    processedImage p = Some processed ->
    JS.truthy processed = true ->
    decode (originalImage p) = Some imgOriginal ->
    decode processed = Some imgProcessed ->
    getContext2d = true ->
    (0 <= naturalWidth imgOriginal)%Z ->
    Forall (fun sp => 0 <= radius sp) (spots s) ->
    (0 <= intensity s <= 100)%Z ->
    exists d base region,
      handleDownload p s
      = Some (mkExportRun [originalImage p; processed] (JS.Fulfilled (Some d)))
      /\ width (raster d) = naturalWidth imgOriginal
      /\ height (raster d) = naturalHeight imgOriginal
      /\ Canvas2D.run (baseCmds imgOriginal)
           (freshContext (blank (naturalWidth imgOriginal)
                                (naturalHeight imgOriginal)))
         = Some base
      /\ exportClip s (naturalWidth imgOriginal) (naturalHeight imgOriginal)
         = Some region
      /\ forall i j,
           (0 <= i < width (raster d))%Z ->
           (0 <= j < height (raster d))%Z ->
           pixel (raster d) i j
           = if region (centre i) (centre j)
             then over (inject_Z (intensity s) / 100)
                       (resample imgProcessed
                          ((centre i - 0) * inject_Z (naturalWidth imgProcessed)
                           / inject_Z (width (raster d)))
                          ((centre j - 0) * inject_Z (naturalHeight imgProcessed)
                           / inject_Z (height (raster d))))
                       (pixel (canvas base) i j)
             else pixel (canvas base) i j.
Proof.
  intros s p processed imgO imgP Hp Ht HdO HdP Hctx Hw Hall Hint.
  destruct (drawing_run s imgO imgP (naturalWidth imgO) (naturalHeight imgO)
                        Hw Hall Hint) as (k & base & Hrun & Hbase & Hpix).
  destruct (exportClip_region s (naturalWidth imgO) (naturalHeight imgO) Hw Hall)
    as (region & Hregion & Hpoints).
  destruct (run_size _ _ _ Hrun) as [Hkw Hkh].
  cbn [canvas freshContext blank width height] in Hkw, Hkh.
  exists (mkDownload "dermafix-retouched.jpg" "image/jpeg" (92 # 100) (canvas k)),
         base, region.
  split.
  { unfold handleDownload. rewrite Hp, Ht. cbn [negb].
    unfold loadImg. rewrite HdO, HdP. cbn [JS.all2 JS.andThen].
    unfold compose. cbn [fst snd]. rewrite Hctx. cbn [negb blank width height].
    now rewrite Hrun. }
  cbn [raster]. rewrite Hkw, Hkh.
  split; [reflexivity|]. split; [reflexivity|]. split; [exact Hbase|].
  split; [exact Hregion|].
  intros i j Hi Hj. rewrite Hpix, Hpoints.
  now rewrite (between_centre _ _ Hi), (between_centre _ _ Hj).
Qed.

(** C5 (as amended).  When either image fails to decode, the promise
    chain of the export never settles: each source was assigned once,
    the composition callback does not run, no file is added, and the
    page state, its error message included, is what it was. *)
Theorem C5_failed_decode_exports_nothing :
  forall (ss : Session.state) (p : Props) (processed : string),
    Session.editorProps (Session.app ss) = Some p ->
    processedImage p = Some processed ->
    JS.truthy processed = true ->
    decode (originalImage p) = None \/ decode processed = None ->
    handleDownload p (Session.editor ss)
    = Some (mkExportRun [originalImage p; processed] JS.Pending)
    /\ Session.clickDownload ss = ss.
Proof.
  intros ss p processed Hprops Hp Ht Hfail.
  assert (Hrun : handleDownload p (Session.editor ss)
                 = Some (mkExportRun [originalImage p; processed] JS.Pending)).
  { unfold handleDownload. rewrite Hp, Ht. cbn [negb]. unfold loadImg.
    destruct Hfail as [HO|HP].
    - rewrite HO. destruct (decode processed); reflexivity.
    - rewrite HP. destruct (decode (originalImage p)); reflexivity. }
  split; [exact Hrun|].
  unfold Session.clickDownload. now rewrite Hprops, Hrun.
Qed.

(** C6.  In Manual mode with an empty spot set the clip region of the
    export is empty, no pixel of the processed image is drawn, and the
    exported raster is the original image alone: it has the original's
    width and height, and each of its pixels is the original, sampled at
    that pixel's own position, composited at full opacity onto a cleared
    pixel -- which is the original's own pixel on every browser that
    copies an unscaled image exactly. *)
Theorem C6_manual_without_spots_exports_original :
  forall (s : state) (p : Props) (processed : string)
         (imgOriginal imgProcessed : Image color),
    retouchMode s = Manual ->
    spots s = [] ->
    processedImage p = Some processed ->
    JS.truthy processed = true ->
    decode (originalImage p) = Some imgOriginal ->
    decode processed = Some imgProcessed ->
    getContext2d = true ->
    exists d base region,
      handleDownload p s
      = Some (mkExportRun [originalImage p; processed] (JS.Fulfilled (Some d)))
      /\ Canvas2D.run (baseCmds imgOriginal)
           (freshContext (blank (naturalWidth imgOriginal)
                                (naturalHeight imgOriginal)))
         = Some base
      /\ (forall i j, pixel (raster d) i j = pixel (canvas base) i j)
      /\ exportClip s (naturalWidth imgOriginal) (naturalHeight imgOriginal)
         = Some region
      /\ (forall px py, region px py = false)
      /\ width (raster d) = naturalWidth imgOriginal
      /\ height (raster d) = naturalHeight imgOriginal
      /\ (forall i j,
            (0 <= i < naturalWidth imgOriginal)%Z ->
            (0 <= j < naturalHeight imgOriginal)%Z ->
            pixel (raster d) i j
            = over 1
                (resample imgOriginal
                   ((centre i - 0) * inject_Z (naturalWidth imgOriginal)
                    / inject_Z (naturalWidth imgOriginal))
                   ((centre j - 0) * inject_Z (naturalHeight imgOriginal)
                    / inject_Z (naturalHeight imgOriginal)))
                transparent)
      /\ ((forall c, over 1 c transparent = c) ->
          (forall img i j sx sy,
              sx == centre i -> sy == centre j ->
              (0 <= i < naturalWidth img)%Z ->
              (0 <= j < naturalHeight img)%Z ->
              resample img sx sy = texel img i j) ->
          forall i j,
            (0 <= i < naturalWidth imgOriginal)%Z ->
            (0 <= j < naturalHeight imgOriginal)%Z ->
            pixel (raster d) i j = texel imgOriginal i j).
Proof.
  intros s p processed imgO imgP Hmode Hspots Hp Ht HdO HdP Hctx.
  set (w := naturalWidth imgO). set (h := naturalHeight imgO).
  assert (Hmask : exists k',
             Canvas2D.run (maskCmds s w h) (freshContext (blank w h)) = Some k').
  { unfold maskCmds. rewrite Hmode, Hspots. eexists. reflexivity. }
  destruct Hmask as [kmask Hmask].
  assert (Hdraw : exists k base,
             Canvas2D.run (drawing s imgO imgP w h) (freshContext (blank w h)) = Some k
             /\ Canvas2D.run (baseCmds imgO) (freshContext (blank w h)) = Some base
             /\ forall i j, pixel (canvas k) i j = pixel (canvas base) i j).
  { unfold drawing, baseCmds, maskCmds. rewrite Hmode, Hspots.
    cbn [app Canvas2D.run exec].
    destruct (Qle_bool 0 (inject_Z (intensity s) / 100)
              && Qle_bool (inject_Z (intensity s) / 100) 1);
      (eexists; eexists; split; [reflexivity|]; split; [reflexivity|]);
      intros i j;
      cbn [canvas withCanvas withCurrent withPath paint pixel current clip
           path app inPath existsb inShape];
      rewrite (between_empty 0 (centre i));
      cbn [andb orb]; rewrite !andb_false_r; reflexivity. }
  destruct Hdraw as (k & base & Hrun & Hbase & Hpix).
  (* the base layer, pixel by pixel *)
  assert (Horiginal : forall i j,
             (0 <= i < w)%Z -> (0 <= j < h)%Z ->
             pixel (canvas k) i j
             = over 1
                 (resample imgO
                    ((centre i - 0) * inject_Z w / inject_Z w)
                    ((centre j - 0) * inject_Z h / inject_Z h))
                 transparent).
  { intros i j Hi Hj. rewrite Hpix.
    pose proof Hbase as Hb. unfold baseCmds in Hb.
    cbn [Canvas2D.run exec] in Hb. injection Hb as Hb. rewrite <- Hb.
    cbn [canvas withCanvas paint pixel freshContext current globalAlpha clip
         blank width height].
    fold w h.
    now rewrite (between_centre _ _ Hi), (between_centre _ _ Hj). }
  destruct (run_size _ _ _ Hrun) as [Hkw Hkh].
  cbn [canvas freshContext blank width height] in Hkw, Hkh.
  exists (mkDownload "dermafix-retouched.jpg" "image/jpeg" (92 # 100) (canvas k)),
         base, (clip (current kmask)).
  split.
  { unfold handleDownload. rewrite Hp, Ht. cbn [negb].
    unfold loadImg. rewrite HdO, HdP. cbn [JS.all2 JS.andThen].
    unfold compose. cbn [fst snd]. rewrite Hctx. cbn [negb blank width height].
    fold w h. now rewrite Hrun. }
  split; [exact Hbase|]. split; [exact Hpix|].
  split; [unfold exportClip; now rewrite Hmask|].
  split.
  { intros px py. revert Hmask. unfold maskCmds. rewrite Hmode, Hspots.
    cbn [Canvas2D.run exec]. intros Hk. injection Hk as <-.
    cbn [current withCurrent clip path withPath app inPath existsb inShape freshContext].
    rewrite (between_empty 0 px). reflexivity. }
  cbn [raster].
  split; [exact Hkw|]. split; [exact Hkh|]. split; [exact Horiginal|].
  intros Hover Hsample i j Hi Hj.
  rewrite (Horiginal i j Hi Hj), Hover.
  assert (Hw : ~ inject_Z w == 0).
  { intros E. assert (0 < inject_Z w)
      by (change 0 with (inject_Z 0); rewrite <- Zlt_Qlt; lia). lra. }
  assert (Hh : ~ inject_Z h == 0).
  { intros E. assert (0 < inject_Z h)
      by (change 0 with (inject_Z 0); rewrite <- Zlt_Qlt; lia). lra. }
  apply Hsample; [field; exact Hw | field; exact Hh | exact Hi | exact Hj].
Qed.

End ExportClaims.

(** ** Instances on a concrete browser *)

Lemma C3_export_clip_matches_preview_mask_witness :
  exists region,
    @Editor.exportClip Session.samplePlatform
      (Editor.handleImageLoad 100 100
         (Editor.mkState 60 Editor.Hold Editor.Manual
            [Editor.mkSpot "1000" 50 50 10] false 50 (5 # 2) 1 None false))
      100 100
    = Some region
    /\ forall px py,
         region px py
         = Editor.previewClip
             (Editor.handleImageLoad 100 100
                (Editor.mkState 60 Editor.Hold Editor.Manual
                   [Editor.mkSpot "1000" 50 50 10] false 50 (5 # 2) 1 None false))
             100 100 px py.
Proof.
  refine (proj1 (@C3_export_clip_matches_preview_mask Session.samplePlatform
                   (Editor.mkState 60 Editor.Hold Editor.Manual
                      [Editor.mkSpot "1000" 50 50 10] false 50 (5 # 2) 1 None false)
                   100 100 eq_refl eq_refl eq_refl _)).
  repeat constructor. unfold Qle. simpl. lia.
Defined.

Lemma C4_export_has_original_dimensions_witness :
  exists d,
    @Editor.handleDownload Session.samplePlatform
      (Editor.mkProps "o.png" (Some "p.png") false) Editor.initial
    = Some (Editor.mkExportRun ["o.png"; "p.png"] (JS.Fulfilled (Some d)))
    /\ Canvas2D.width (Editor.raster d) = 4
    /\ Canvas2D.height (Editor.raster d) = 2.
Proof.
  destruct (@C4_export_has_original_dimensions Session.samplePlatform
              Editor.initial (Editor.mkProps "o.png" (Some "p.png") false)
              "p.png" Session.sampleImage Session.sampleImage
              eq_refl eq_refl eq_refl eq_refl eq_refl)
    as (d & _ & _ & Hrun & Hw & Hh & _).
  - simpl. lia.
  - constructor.
  - simpl. lia.
  - exists d. split; [exact Hrun|]. split; [exact Hw | exact Hh].
Defined.

Lemma C5_failed_decode_exports_nothing_witness :
  @Session.clickDownload Session.samplePlatform
    (Session.mk (App.mkState (Some "broken") (Some "p.png") false None)
                Editor.initial [])
  = Session.mk (App.mkState (Some "broken") (Some "p.png") false None)
               Editor.initial [].
Proof.
  refine (proj2 (@C5_failed_decode_exports_nothing Session.samplePlatform
                   (Session.mk (App.mkState (Some "broken") (Some "p.png") false None)
                               Editor.initial [])
                   (Editor.mkProps "broken" (Some "p.png") false) "p.png"
                   eq_refl eq_refl eq_refl _)).
  left. reflexivity.
Defined.

(** C5 as first stated fails: a failed decode leaves no message to show. *)
Lemma C5_failed_decode_shows_no_message :
  ~ (forall (P : Canvas2D.Platform) (ss : Session.state)
            (p : Editor.Props) (processed : string),
       Session.editorProps (Session.app ss) = Some p ->
       Editor.processedImage p = Some processed ->
       JS.truthy processed = true ->
       Canvas2D.decode (Editor.originalImage p) = None
       \/ Canvas2D.decode processed = None ->
       (exists msg,
           App.error (Session.app (Session.clickDownload ss)) = Some msg
           /\ JS.truthy msg = true)
       /\ Session.files (Session.clickDownload ss) = Session.files ss).
Proof.
  intros claim.
  destruct (claim Session.samplePlatform
              (Session.mk (App.mkState (Some "broken") (Some "p.png") false None)
                          Editor.initial [])
              (Editor.mkProps "broken" (Some "p.png") false) "p.png"
              eq_refl eq_refl eq_refl (or_introl eq_refl))
    as [[msg [Herr _]] _].
  vm_compute in Herr. discriminate Herr.
Qed.

(** On the sample browser the centre of a pixel is sampled at that
    pixel. *)
Lemma Qfloor_centre (i : Z) (q : Q) :
  q == Canvas2D.centre i -> Qfloor q = i.
Proof.
  intros E. rewrite E. unfold Canvas2D.centre.
  pose proof (Qfloor_le (inject_Z i + (1 # 2))) as Hlo.
  pose proof (Qlt_floor (inject_Z i + (1 # 2))) as Hhi.
  set (f := Qfloor (inject_Z i + (1 # 2))) in *.
  assert (H1 : (f < i + 1)%Z).
  { rewrite Zlt_Qlt, inject_Z_plus. change (inject_Z 1) with 1%Q. lra. }
  assert (H2 : (i < f + 1)%Z).
  { rewrite Zlt_Qlt. lra. }
  lia.
Qed.

Lemma C6_manual_without_spots_exports_original_witness :
  exists d,
    @Editor.handleDownload Session.samplePlatform
      (Editor.mkProps "o.png" (Some "p.png") false)
      (Editor.step (Editor.mkProps "o.png" (Some "p.png") false)
                   Editor.initial Editor.ClickManual)
    = Some (Editor.mkExportRun ["o.png"; "p.png"] (JS.Fulfilled (Some d)))
    /\ Canvas2D.width (Editor.raster d) = 4
    /\ Canvas2D.height (Editor.raster d) = 2
    /\ forall i j,
         0 <= i < 4 -> 0 <= j < 2 ->
         Canvas2D.pixel (Editor.raster d) i j = Z.even (i + j).
Proof.
  destruct (@C6_manual_without_spots_exports_original Session.samplePlatform
              (Editor.step (Editor.mkProps "o.png" (Some "p.png") false)
                           Editor.initial Editor.ClickManual)
              (Editor.mkProps "o.png" (Some "p.png") false)
              "p.png" Session.sampleImage Session.sampleImage
              eq_refl eq_refl eq_refl eq_refl eq_refl eq_refl eq_refl)
    as (d & base & region & Hrun & _ & _ & _ & _ & Hw & Hh & _ & Htexel).
  exists d. split; [exact Hrun|]. split; [exact Hw|]. split; [exact Hh|].
  intros i j Hi Hj.
  apply (Htexel (fun c => eq_refl)); [| exact Hi | exact Hj].
  intros img i' j' sx sy Hsx Hsy _ _. cbn [Canvas2D.resample Session.samplePlatform].
  now rewrite (Qfloor_centre i' sx Hsx), (Qfloor_centre j' sy Hsy).
Defined.

(* ================================================================== *)
(** * Further properties *)

(** ** Data-URL helpers on arbitrary strings *)

Section DataUrlEdges.
Import JS ImageHelpers.

Lemma indexOfFrom_absent (c : ascii) (s : string) (i : Z) :
  includes s c = false -> indexOfFrom c s i = -1.
Proof.
  revert i; induction s as [|a s IH]; intros i H; simpl in *; [reflexivity|].
  apply orb_false_elim in H as [Ha Hs]. rewrite Ha. now apply IH.
Qed.

Lemma substring_whole_prefix (n : nat) (pre rest : string) :
  n = String.length pre -> String.substring 0 n (pre ++ rest) = pre.
Proof. intros ->. apply substring_prefix. Qed.

(** [getMimeType] returns the text between the first [:] and the first
    [;] whenever the colon comes first, whatever follows the [;]. *)
Theorem getMimeType_between_colon_and_semicolon :
  forall (pre m rest : string),
    includes pre ":" = false ->
    includes pre ";" = false ->
    includes m ";" = false ->
    getMimeType (pre ++ String ":" (m ++ String ";" rest)) = m.
Proof.
  intros pre m rest Hcolon Hsemi Hm. unfold getMimeType.
  rewrite (indexOf_at ":" pre _ Hcolon).
  replace (pre ++ String ":" (m ++ String ";" rest))
    with ((pre ++ String ":" m) ++ String ";" rest) at 2
    by (rewrite append_assoc'; reflexivity).
  rewrite indexOf_at
    by (rewrite includes_append; simpl; rewrite Hsemi, Hm; reflexivity).
  unfold substring, clampIndex.
  rewrite !length_append. cbn [String.length]. rewrite !length_append.
  cbn [String.length].
  set (a := String.length pre). set (n := String.length m).
  set (k := String.length rest).
  assert (E1 : Z.min (Z.max (Z.of_nat a + 1) 0) (Z.of_nat (a + S (n + S k)))
               = Z.of_nat (S a)) by lia.
  assert (E2 : Z.min (Z.max (Z.of_nat (a + S n)) 0) (Z.of_nat (a + S (n + S k)))
               = Z.of_nat (S a) + Z.of_nat n) by lia.
  rewrite E1, E2.
  replace (Z.to_nat (Z.min (Z.of_nat (S a)) (Z.of_nat (S a) + Z.of_nat n)))
    with (String.length (pre ++ ":"))
    by (rewrite length_append; cbn [String.length]; unfold a; lia).
  replace (Z.to_nat (Z.max (Z.of_nat (S a)) (Z.of_nat (S a) + Z.of_nat n)
                     - Z.min (Z.of_nat (S a)) (Z.of_nat (S a) + Z.of_nat n)))
    with n by lia.
  replace (pre ++ String ":" (m ++ String ";" rest))
    with ((pre ++ ":") ++ (m ++ String ";" rest))
    by (rewrite append_assoc'; reflexivity).
  rewrite substring_drop. apply substring_prefix.
Qed.

Lemma getMimeType_between_colon_and_semicolon_witness :
  getMimeType "data:text/plain;charset=utf-8;base64,aGk=" = "text/plain".
Proof.
  exact (getMimeType_between_colon_and_semicolon
           "data" "text/plain" "charset=utf-8;base64,aGk="
           eq_refl eq_refl eq_refl).
Defined.

(** Without any [;] the two indices come out swapped: what is returned
    is the text up to and including the first [:], and the empty string
    when there is no [:] either. *)
Theorem getMimeType_without_semicolon :
  forall (pre rest : string),
    includes pre ":" = false ->
    includes (pre ++ String ":" rest) ";" = false ->
    getMimeType (pre ++ String ":" rest) = pre ++ ":"
    /\ getMimeType pre = "".
Proof.
  intros pre rest Hcolon Hsemi. split.
  - unfold getMimeType, indexOf at 2.
    rewrite (indexOfFrom_absent _ _ _ Hsemi), (indexOf_at ":" pre rest Hcolon).
    unfold substring, clampIndex. rewrite length_append. cbn [String.length].
    set (a := String.length pre). set (k := String.length rest).
    assert (E1 : Z.min (Z.max (Z.of_nat a + 1) 0) (Z.of_nat (a + S k))
                 = Z.of_nat (S a)) by lia.
    assert (E2 : Z.min (Z.max (-1) 0) (Z.of_nat (a + S k)) = 0) by lia.
    rewrite E1, E2.
    replace (Z.to_nat (Z.min (Z.of_nat (S a)) 0)) with 0%nat by lia.
    replace (Z.to_nat (Z.max (Z.of_nat (S a)) 0 - Z.min (Z.of_nat (S a)) 0))
      with (S a) by lia.
    replace (pre ++ String ":" rest) with ((pre ++ ":") ++ rest)
      by (rewrite append_assoc'; reflexivity).
    apply substring_whole_prefix. rewrite length_append.
    cbn [String.length]. unfold a. lia.
  - rewrite includes_append in Hsemi. apply orb_false_elim in Hsemi as [Hpre _].
    unfold getMimeType, indexOf.
    rewrite (indexOfFrom_absent _ _ _ Hcolon), (indexOfFrom_absent _ _ _ Hpre).
    unfold substring, clampIndex.
    replace (Z.min (Z.max (-1 + 1) 0) (Z.of_nat (String.length pre))) with 0 by lia.
    replace (Z.min (Z.max (-1) 0) (Z.of_nat (String.length pre))) with 0 by lia.
    cbn. now destruct pre.
Qed.

Lemma getMimeType_without_semicolon_witness :
  getMimeType "data:text/plain,hello" = "data:".
Proof.
  exact (proj1 (getMimeType_without_semicolon "data" "text/plain,hello"
                  eq_refl eq_refl)).
Defined.

(** A string without a comma has no index 1 after [split(',')]:
    [getBase64Data] yields [undefined]. *)
Theorem getBase64Data_without_comma :
  forall (s : string),
    includes s "," = false -> getBase64Data s = None.
Proof.
  intros s H. unfold getBase64Data. now rewrite (split_no_separator _ _ H).
Qed.

Lemma getBase64Data_without_comma_witness :
  getBase64Data "blob:4f2a" = None.
Proof. exact (getBase64Data_without_comma "blob:4f2a" eq_refl). Defined.

(** [getBase64Data] returns the text between the first and the second
    comma: anything from a second comma on is cut off. *)
Theorem getBase64Data_stops_at_second_comma :
  forall (head body rest : string),
    includes head "," = false ->
    includes body "," = false ->
    getBase64Data (head ++ String "," (body ++ String "," rest)) = Some body.
Proof.
  intros head body rest Hh Hb. unfold getBase64Data.
  rewrite (split_at_separator _ _ _ Hh), (split_at_separator _ _ _ Hb).
  reflexivity.
Qed.

Lemma getBase64Data_stops_at_second_comma_witness :
  getBase64Data "data:image/png;base64,QUJD,REVG" = Some "QUJD".
Proof.
  exact (getBase64Data_stops_at_second_comma
           "data:image/png;base64" "QUJD" "REVG" eq_refl eq_refl).
Defined.

End DataUrlEdges.

(** ** The Gemini service and the App handlers *)

Section ServiceAndApp.
Import GeminiService.

Lemma firstInlineData_some (ps : list Part) (d : string) :
  firstInlineData ps = Some d ->
  JS.truthy d = true /\ existsb partCarriesImage ps = true.
Proof.
  induction ps as [|p ps IH]; simpl; intros H; [discriminate|].
  unfold partCarriesImage at 1.
  destruct (inlineData p) as [[[d'|]]|]; try (destruct (IH H) as [Ht Hex]; now rewrite Hex).
  destruct (JS.truthy d') eqn:Ht'.
  - injection H as <-. now split.
  - destruct (IH H) as [Ht Hex]. now rewrite Hex.
Qed.

(** [processFaceImage] returns only non-empty data, and only when the
    remote call answered with image data. *)
Theorem processFaceImage_returns_image_data :
  forall (remote : RemoteOutcome) (d : string),
    processFaceImage remote = Return d ->
    JS.truthy d = true /\ callFails remote = false.
Proof.
  intros remote d H. destruct remote as [e|r]; simpl in H; [discriminate|].
  unfold callFails, carriesImageData.
  destruct (candidates r) as [[|c cs]|]; try discriminate.
  destruct (parts c) as [ps|] eqn:Hps; [|discriminate].
  destruct (firstInlineData ps) as [d'|] eqn:Hfirst; [|discriminate].
  injection H as <-. destruct (firstInlineData_some _ _ Hfirst) as [Ht Hex].
  split; [exact Ht|]. cbn [existsb]. unfold candidateCarriesImage at 1.
  now rewrite Hps, Hex.
Qed.

Lemma processFaceImage_returns_image_data_witness :
  callFails
    (Responds (mkResponse (Some [mkCandidate
       (Some [mkPart None;
              mkPart (Some (mkInlineData (Some "QUJD")))])])))
  = false.
Proof.
  exact (proj2 (processFaceImage_returns_image_data
                  (Responds (mkResponse (Some [mkCandidate
                     (Some [mkPart None;
                            mkPart (Some (mkInlineData (Some "QUJD")))])])))
                  "QUJD" eq_refl)).
Defined.

(** Only [candidates[0]] is read: when its parts carry no image data the
    call fails with "No image data returned from the model.", whatever
    the later candidates hold. *)
Theorem processFaceImage_reads_first_candidate_only :
  forall (ps : list Part) (later : list Candidate),
    existsb partCarriesImage ps = false ->
    processFaceImage (Responds (mkResponse (Some (mkCandidate (Some ps) :: later))))
    = Throw noImageData.
Proof.
  intros ps later H. cbn. now rewrite (firstInlineData_none ps H).
Qed.

Lemma processFaceImage_reads_first_candidate_only_witness :
  processFaceImage
    (Responds (mkResponse (Some
       [mkCandidate (Some [mkPart None]);
        mkCandidate (Some [mkPart (Some (mkInlineData (Some "QUJD")))])])))
  = Throw noImageData
  /\ callFails
       (Responds (mkResponse (Some
          [mkCandidate (Some [mkPart None]);
           mkCandidate (Some [mkPart (Some (mkInlineData (Some "QUJD")))])])))
     = false.
Proof.
  split; [|reflexivity].
  exact (processFaceImage_reads_first_candidate_only
           [mkPart None]
           [mkCandidate (Some [mkPart (Some (mkInlineData (Some "QUJD")))])]
           eq_refl).
Defined.

(** The message shown after a failed retouch: the thrown message when it
    is non-empty, the generic text otherwise. *)
Theorem handleProcessImage_error_text :
  forall generateContent (st : App.state) (original : string) (err : Error),
    App.originalImage st = Some original ->
    JS.truthy original = true ->
    generateContent (ImageHelpers.getBase64Data original)
                    (ImageHelpers.getMimeType original) = Throws err ->
    (JS.truthy (message err) = true ->
     App.error (App.handleProcessImage generateContent st) = Some (message err))
    /\ (message err = "" ->
        App.error (App.handleProcessImage generateContent st)
        = Some "Failed to process image with Gemini AI.").
Proof.
  intros generateContent st original err Ho Ht Hcall.
  unfold App.handleProcessImage. rewrite Ho, Ht. cbn [negb]. cbv zeta.
  rewrite Hcall. cbn [processFaceImage App.error]. unfold App.errorText.
  split; intros H; now rewrite H.
Qed.

Lemma handleProcessImage_error_text_witness :
  App.error
    (App.handleProcessImage (fun _ _ => Throws (mkError "quota exceeded"))
       (App.mkState (Some "data:image/png;base64,QQ==") None false None))
  = Some "quota exceeded".
Proof.
  exact (proj1 (handleProcessImage_error_text
                  (fun _ _ => Throws (mkError "quota exceeded"))
                  (App.mkState (Some "data:image/png;base64,QQ==") None false None)
                  "data:image/png;base64,QQ==" (mkError "quota exceeded")
                  eq_refl eq_refl eq_refl)
               eq_refl).
Defined.

(** A successful retouch stores a non-empty data URL, clears the error
    and the busy flag and keeps the original, so the Editor then shows
    "Download Image" in place of "Generate Retouch". *)
Theorem handleProcessImage_success_enables_download :
  forall generateContent (st : App.state) (original d : string),
    App.originalImage st = Some original ->
    JS.truthy original = true ->
    processFaceImage (generateContent (ImageHelpers.getBase64Data original)
                                      (ImageHelpers.getMimeType original))
    = Return d ->
    App.handleProcessImage generateContent st
    = App.mkState (Some original)
                  (Some (ImageHelpers.dataUrl (ImageHelpers.getMimeType original) d))
                  false None
    /\ exists p,
         Session.editorProps (App.handleProcessImage generateContent st) = Some p
         /\ Editor.hasProcessed p = true.
Proof.
  intros generateContent st original d Ho Ht Hcall.
  assert (E : App.handleProcessImage generateContent st
              = App.mkState (Some original)
                  (Some (ImageHelpers.dataUrl (ImageHelpers.getMimeType original) d))
                  false None).
  { unfold App.handleProcessImage. rewrite Ho, Ht. cbn [negb]. cbv zeta.
    rewrite Hcall. reflexivity. }
  split; [exact E|]. rewrite E. unfold Session.editorProps.
  cbn [App.originalImage]. rewrite Ht. eexists. split; reflexivity.
Qed.

Lemma handleProcessImage_success_enables_download_witness :
  App.processedImage
    (App.handleProcessImage
       (fun _ _ => Responds (mkResponse (Some [mkCandidate
          (Some [mkPart (Some (mkInlineData (Some "QUJD")))])])))
       (App.mkState (Some "data:image/png;base64,QQ==") None false None))
  = Some "data:image/png;base64,QUJD".
Proof.
  exact (f_equal App.processedImage
           (proj1 (handleProcessImage_success_enables_download
                     (fun _ _ => Responds (mkResponse (Some [mkCandidate
                        (Some [mkPart (Some (mkInlineData (Some "QUJD")))])])))
                     (App.mkState (Some "data:image/png;base64,QQ==") None false None)
                     "data:image/png;base64,QQ==" "QUJD"
                     eq_refl eq_refl eq_refl))).
Defined.

(** [handleImageSelected] either accepts the file (at most 50 * 1024 *
    1024 bytes and readable: the new original is stored, the processed
    image and the error are cleared) or rejects it (larger, or unreadable:
    both images are kept and a message is set); the busy flag is never
    touched. *)
Theorem handleImageSelected_accepts_or_keeps :
  forall (file : App.File) (st : App.state),
    ((App.size file <= 50 * 1024 * 1024)%Z
     /\ exists base64,
          App.readAsDataURL file = Some base64
          /\ App.handleImageSelected file st
             = App.mkState (Some base64) None (App.isProcessing st) None)
    \/ (((50 * 1024 * 1024 < App.size file)%Z \/ App.readAsDataURL file = None)
        /\ App.originalImage (App.handleImageSelected file st) = App.originalImage st
        /\ App.processedImage (App.handleImageSelected file st) = App.processedImage st
        /\ App.isProcessing (App.handleImageSelected file st) = App.isProcessing st
        /\ exists msg,
             App.error (App.handleImageSelected file st) = Some msg
             /\ JS.truthy msg = true).
Proof.
  intros file st. unfold App.handleImageSelected. cbv zeta.
  destruct (Z.ltb_spec (50 * 1024 * 1024) (App.size file)) as [Hbig|Hok].
  - right. split; [now left|]. cbn. repeat split. eexists. split; reflexivity.
  - destruct (App.readAsDataURL file) as [base64|] eqn:Hread.
    + left. split; [exact Hok|]. exists base64. split; reflexivity.
    + right. split; [now right|]. cbn. repeat split. eexists. split; reflexivity.
Qed.

(** The sequential handlers are their two halves run back to back. *)
Lemma handleProcessImage_begin_settle generateContent (st : App.state) :
  App.handleProcessImage generateContent st
  = match App.beginProcessImage st with
    | (st', Some req) =>
        App.settleProcessImage req
          (generateContent (App.rawBase64 req) (App.mimeType req)) st'
    | (st', None) => st'
    end.
Proof.
  unfold App.handleProcessImage, App.beginProcessImage, App.settleProcessImage.
  destruct (App.originalImage st) as [o|]; [|reflexivity].
  destruct (JS.truthy o); reflexivity.
Qed.

Lemma handleImageSelected_begin_settle (file : App.File) (st : App.state) :
  App.handleImageSelected file st
  = if snd (App.beginImageSelected file st)
    then App.settleImageSelected file (fst (App.beginImageSelected file st))
    else fst (App.beginImageSelected file st).
Proof.
  unfold App.handleImageSelected, App.beginImageSelected, App.settleImageSelected.
  cbv zeta. destruct (50 * 1024 * 1024 <? App.size file); reflexivity.
Qed.

End ServiceAndApp.

(** ** The Editor's cells under arbitrary gestures *)

Section EditorInvariants.
Import Editor.

Local Open Scope Q_scope.

(** A property kept by every admissible gesture holds after every
    sequence of admissible gestures. *)
Lemma run_invariant (Inv : state -> Prop) (admissible : Action -> bool) :
  (forall p s a, admissible a = true -> Inv s -> Inv (step p s a)) ->
  forall acts s,
    forallb (fun pa => admissible (snd pa)) acts = true ->
    Inv s -> Inv (run s acts).
Proof.
  intros Hstep acts. induction acts as [|[p a] acts IH]; intros s Hall Hs.
  - exact Hs.
  - cbn [forallb snd] in Hall. apply andb_prop in Hall as [Ha Hrest].
    apply IH; [exact Hrest|]. now apply Hstep.
Qed.

(** Only image clicks, spot clicks and "Clear All Spots" write the spot
    store, and in Auto mode not even those: switching modes, moving the
    sliders or loading the image never drops or adds a spot. *)
Theorem step_keeps_spots :
  forall (p : Props) (s : state) (a : Action),
    editsSpots a && isManual s = false ->
    spots (step p s a) = spots s.
Proof.
  intros p s a H. unfold isManual in H.
  destruct a; cbn [editsSpots andb] in H; try discriminate H;
    unfold step, isManual, handleImageClick, removeSpot, handleMouseMove,
           handleSliderMove, handleMouseLeave, handleImageLoad,
           handleDragStart, handleDragStop;
    cbn [isDraggingSlider setCursorPos];
    repeat match goal with
           | |- context [if ?b then _ else _] => destruct b
           | |- context [match ?o with Some _ => _ | None => _ end] => destruct o
           | |- context [match retouchMode ?s with Auto => _ | Manual => _ end] =>
               destruct (retouchMode s)
           | |- context [match ?l with [] => _ | _ :: _ => _ end] => destruct l
           end;
    try reflexivity; discriminate H.
Qed.

Lemma step_keeps_spots_witness :
  spots (step (mkProps "o" (Some "p") false)
              (mkState 60 Hold Manual [mkSpot "1000" 50 50 (5 # 2)]
                       false 50 (5 # 2) 1 None false)
              ClickAuto)
  = [mkSpot "1000" 50 50 (5 # 2)].
Proof.
  exact (step_keeps_spots (mkProps "o" (Some "p") false)
           (mkState 60 Hold Manual [mkSpot "1000" 50 50 (5 # 2)]
                    false 50 (5 # 2) 1 None false)
           ClickAuto eq_refl).
Defined.

Lemma filter_twice {A} (f : A -> bool) (l : list A) :
  filter f (filter f l) = filter f l.
Proof.
  induction l as [|a l IH]; simpl; [reflexivity|].
  destruct (f a) eqn:E; simpl; rewrite ?E, IH; reflexivity.
Qed.

(** [removeSpot] removes every spot that carries the id and no other,
    and changes nothing when done twice. *)
Theorem removeSpot_removes_exactly :
  forall (i : string) (s : state),
    (forall sp, In sp (spots (removeSpot i s)) <-> (In sp (spots s) /\ id sp <> i))
    /\ removeSpot i (removeSpot i s) = removeSpot i s.
Proof.
  intros i s. split.
  - intros sp. unfold removeSpot. cbn [setSpots spots].
    rewrite filter_In, negb_true_iff, String.eqb_neq. reflexivity.
  - unfold removeSpot, setSpots. cbn. now rewrite filter_twice.
Qed.

(** Removing an id that no spot carries leaves the whole state as it
    was. *)
Theorem removeSpot_absent_id :
  forall (i : string) (s : state),
    ~ In i (ids s) -> spots (removeSpot i s) = spots s.
Proof.
  intros i s H. unfold removeSpot. cbn [setSpots spots].
  now apply filter_other_ids.
Qed.

Lemma removeSpot_absent_id_witness :
  spots (removeSpot "7"
           (mkState 60 Hold Manual [mkSpot "1000" 50 50 (5 # 2)]
                    false 50 (5 # 2) 1 None false))
  = [mkSpot "1000" 50 50 (5 # 2)].
Proof.
  apply (removeSpot_absent_id "7"
           (mkState 60 Hold Manual [mkSpot "1000" 50 50 (5 # 2)]
                    false 50 (5 # 2) 1 None false)).
  intros [H|[]]. discriminate H.
Defined.

Lemma handleImageClick_ids (c : option DOMRect.t) (now : N) (e : MouseEvent)
    (s : state) :
  ids (handleImageClick c now e s) = ids s
  \/ ids (handleImageClick c now e s) = (ids s ++ [JS.toString now])%list.
Proof.
  unfold handleImageClick.
  destruct (retouchMode s); [now left|].
  destruct c as [rect|]; [|now left].
  destruct (onSliderHandle e || onSpotRemover e); [now left|].
  right. unfold ids. cbn [setSpots spots]. now rewrite map_app.
Qed.

Lemma removeSpot_ids_incl (i : string) (s : state) :
  incl (ids (removeSpot i s)) (ids s).
Proof.
  unfold ids, removeSpot. cbn [setSpots spots]. intros j Hj.
  apply in_map_iff in Hj as [sp [<- Hin]]. apply filter_In in Hin as [Hin _].
  now apply in_map.
Qed.

(** A gesture other than an image click adds no id. *)
Lemma step_ids_shrink (p : Props) (s : state) (a : Action) :
  clickTimes [(p, a)] = [] ->
  incl (ids (step p s a)) (ids s)
  /\ (NoDup (ids s) -> NoDup (ids (step p s a))).
Proof.
  intros Hnot.
  destruct (editsSpots a && isManual s) eqn:E.
  - apply andb_prop in E as [Ha Hm]. destruct a; try discriminate Ha.
    + discriminate Hnot.
    + cbn [step]. rewrite Hm. split; [apply removeSpot_ids_incl | apply removeSpot_NoDup].
    + cbn [step]. unfold ids.
      destruct (retouchMode s); [split; [apply incl_refl | auto]|].
      destruct (spots s) eqn:Hsp; [rewrite Hsp; split; [apply incl_refl | auto]|].
      cbn [setSpots spots map]. split; [intros j [] | constructor].
  - unfold ids. rewrite (step_keeps_spots p s a E).
    split; [apply incl_refl | auto].
Qed.

Lemma ids_stay_unique (acts : list (Props * Action)) :
  forall s,
    NoDup (ids s) ->
    NoDup (clickTimes acts) ->
    (forall t, In t (clickTimes acts) -> ~ In (JS.toString t) (ids s)) ->
    NoDup (ids (run s acts)).
Proof.
  induction acts as [|[p a] acts IH]; intros s Hnd Htimes Hfresh; [exact Hnd|].
  change (run s ((p, a) :: acts)) with (run (step p s a) acts).
  destruct (clickTimes [(p, a)]) as [|t0 l0] eqn:Hclick.
  - assert (Hrest : clickTimes ((p, a) :: acts) = clickTimes acts).
    { destruct a; try reflexivity. discriminate Hclick. }
    rewrite Hrest in Htimes, Hfresh.
    destruct (step_ids_shrink p s a Hclick) as [Hincl Hkeep].
    apply IH; [now apply Hkeep | exact Htimes |].
    intros t Ht Hin. apply (Hfresh t Ht). now apply Hincl.
  - destruct a; try discriminate Hclick.
    cbn [clickTimes] in Htimes, Hfresh. cbn [step].
    inversion Htimes as [|? ? Hnotin Hnd']; subst.
    apply IH; [| exact Hnd' |].
    + apply handleImageClick_fresh_NoDup; [exact Hnd|]. apply Hfresh. now left.
    + intros t Ht Hin.
      destruct (handleImageClick_ids container now e s) as [E|E]; rewrite E in Hin.
      * apply (Hfresh t); [now right | exact Hin].
      * apply in_app_or in Hin as [Hin|[Heq|[]]].
        -- apply (Hfresh t); [now right | exact Hin].
        -- apply toString_inj in Heq. subst t. contradiction.
Qed.

(** As long as no two image clicks read the same [Date.now()], the ids
    in the store stay pairwise distinct under every sequence of gestures
    from the initial state. *)
Theorem ids_unique_when_clock_readings_differ :
  forall (acts : list (Props * Action)),
    NoDup (clickTimes acts) ->
    NoDup (ids (run initial acts)).
Proof.
  intros acts Htimes. apply ids_stay_unique; [constructor | exact Htimes |].
  intros t _ [].
Qed.

Lemma ids_unique_when_clock_readings_differ_witness :
  NoDup (ids (run initial
                [(mkProps "o" None false, ClickManual);
                 (mkProps "o" None false,
                  ClickImage (Some (DOMRect.mk 0 0 200 100)) 1000
                             (mkMouseEvent 20 30 false false));
                 (mkProps "o" None false,
                  ClickImage (Some (DOMRect.mk 0 0 200 100)) 1001
                             (mkMouseEvent 120 60 false false))])).
Proof.
  apply ids_unique_when_clock_readings_differ.
  cbn [clickTimes]. constructor.
  - intros [H|[]]. discriminate H.
  - constructor; [intros [] | constructor].
Defined.

End EditorInvariants.

(** ** Ranges of the Editor's numbers *)

Section EditorRanges.
Import Editor.

Local Open Scope Q_scope.

Lemma Forall_filter_keep {A} (Q : A -> Prop) (f : A -> bool) (l : list A) :
  Forall Q l -> Forall Q (filter f l).
Proof.
  rewrite !Forall_forall. intros H a Ha. apply filter_In in Ha as [Ha _]. auto.
Qed.

(** A position inside a span of positive length is between 0 and 100
    percent of it. *)
Lemma percent_inside (c l w : Q) :
  0 < w -> l <= c -> c <= l + w ->
  0 <= (c - l) / w * 100 /\ (c - l) / w * 100 <= 100.
Proof.
  intros Hw Hlo Hhi.
  assert (H0 : 0 <= (c - l) / w) by (apply Qle_shift_div_l; lra).
  assert (H1 : (c - l) / w <= 1) by (apply Qle_shift_div_r; lra).
  split; lra.
Qed.

Ltac open_handlers :=
  unfold handleImageClick, removeSpot, handleMouseMove, handleSliderMove,
         handleMouseLeave, handleImageLoad, handleDragStart, handleDragStop;
  cbn [isDraggingSlider setCursorPos];
  repeat match goal with
         | |- context [if ?b then _ else _] => destruct b eqn:?
         | |- context [match ?o with Some _ => _ | None => _ end] => destruct o eqn:?
         | |- context [match retouchMode ?s with Auto => _ | Manual => _ end] =>
             destruct (retouchMode s) eqn:?
         | |- context [match spots ?s with [] => _ | _ :: _ => _ end] =>
             destruct (spots s) eqn:?
         end.

(** While the two range inputs deliver values inside their [min]/[max],
    the intensity stays within 0..100, the brush size within 0.5..8, and
    every stored spot has a radius within 0.5..8. *)
Theorem ranges_of_intensity_and_radius :
  forall (acts : list (Props * Action)),
    forallb (fun pa => inputInRange (snd pa)) acts = true ->
    (0 <= intensity (run initial acts) <= 100)%Z
    /\ (1 # 2) <= brushSize (run initial acts)
    /\ brushSize (run initial acts) <= 8
    /\ Forall (fun sp => (1 # 2) <= radius sp /\ radius sp <= 8)
              (spots (run initial acts)).
Proof.
  intros acts Hall.
  apply (run_invariant
           (fun s => (0 <= intensity s <= 100)%Z
                     /\ (1 # 2) <= brushSize s /\ brushSize s <= 8
                     /\ Forall (fun sp => (1 # 2) <= radius sp /\ radius sp <= 8)
                               (spots s))
           inputInRange); [| exact Hall |].
  - intros p s a Ha ([Hi0 Hi1] & Hb1 & Hb2 & Hsp).
    destruct a; cbn [inputInRange] in Ha.
    5: { cbn [step]. destruct (hasProcessed p); [|repeat split; assumption].
         apply andb_prop in Ha as [H0 H1]. apply Z.leb_le in H0, H1.
         repeat split; assumption. }
    5: { cbn [step]. destruct (isManual s); [|repeat split; assumption].
         apply andb_prop in Ha as [H0 H1]. apply Qle_bool_iff in H0, H1.
         repeat split; assumption. }
    5: { cbn [step]. unfold handleImageClick.
         destruct (retouchMode s); [repeat split; assumption|].
         destruct container as [rect|]; [|repeat split; assumption].
         destruct (onSliderHandle e || onSpotRemover e); [repeat split; assumption|].
         cbn [intensity brushSize spots setSpots]. repeat split; try assumption.
         apply Forall_app. split; [assumption|]. constructor; [|constructor].
         cbn [radius]. split; assumption. }
    5: { cbn [step]. destruct (isManual s); [|repeat split; assumption].
         unfold removeSpot. cbn [intensity brushSize spots setSpots].
         repeat split; try assumption. now apply Forall_filter_keep. }
    5: { cbn [step]. destruct (retouchMode s); [repeat split; assumption|].
         destruct (spots s) eqn:Hs; [rewrite Hs; repeat split; assumption|].
         cbn [intensity brushSize spots setSpots].
         repeat split; try assumption. constructor. }
    all: match goal with
         | |- context [step ?p0 ?s0 ?a] =>
             assert (Hspots : spots (step p0 s0 a) = spots s0)
               by (apply step_keeps_spots; reflexivity);
             rewrite Hspots
         end;
         cbn [step]; open_handlers;
         cbn [intensity brushSize setIntensity setViewMode setRetouchMode
              setSpots setIsHoldingOriginal setSliderPosition setBrushSize
              setAspectRatio setCursorPos setIsDraggingSlider];
         repeat split; assumption.
  - cbn. repeat split; try lia; try constructor; unfold Qle; simpl; lia.
Qed.

Lemma ranges_of_intensity_and_radius_witness :
  Forall (fun sp => (1 # 2) <= radius sp /\ radius sp <= 8)
         (spots (run initial
                   [(mkProps "o" None false, ClickManual);
                    (mkProps "o" None false, ChangeBrushSize 8);
                    (mkProps "o" None false,
                     ClickImage (Some (DOMRect.mk 0 0 200 100)) 1000
                                (mkMouseEvent 20 30 false false))])).
Proof.
  exact (proj2 (proj2 (proj2 (ranges_of_intensity_and_radius
           [(mkProps "o" None false, ClickManual);
            (mkProps "o" None false, ChangeBrushSize 8);
            (mkProps "o" None false,
             ClickImage (Some (DOMRect.mk 0 0 200 100)) 1000
                        (mkMouseEvent 20 30 false false))]
           eq_refl)))).
Defined.

(** While every image click lands on its container, every stored spot
    has its centre within 0..100 percent in both directions. *)
Theorem spot_centres_stay_on_the_image :
  forall (acts : list (Props * Action)),
    forallb (fun pa => pointerInside (snd pa)) acts = true ->
    Forall (fun sp => 0 <= x sp /\ x sp <= 100 /\ 0 <= y sp /\ y sp <= 100)
           (spots (run initial acts)).
Proof.
  intros acts Hall.
  apply (run_invariant
           (fun s => Forall (fun sp => 0 <= x sp /\ x sp <= 100
                                        /\ 0 <= y sp /\ y sp <= 100) (spots s))
           pointerInside); [| exact Hall | constructor].
  intros p s a Ha Hsp.
  destruct (editsSpots a && isManual s) eqn:E;
    [| now rewrite (step_keeps_spots p s a E)].
  apply andb_prop in E as [He Hm]. destruct a; try discriminate He; cbn [step].
  - unfold handleImageClick.
    destruct (retouchMode s); [exact Hsp|].
    destruct container as [rect|]; [|exact Hsp].
    destruct (onSliderHandle e || onSpotRemover e); [exact Hsp|].
    cbn [setSpots spots]. apply Forall_app. split; [exact Hsp|].
    constructor; [|constructor]. cbn [x y].
    cbn [pointerInside] in Ha. unfold insideRect in Ha.
    repeat (apply andb_prop in Ha as [Ha ?]).
    repeat match goal with
           | H : Qle_bool _ _ = true |- _ => apply Qle_bool_iff in H
           | H : Canvas2D.Qltb _ _ = true |- _ => apply Qltb_iff in H
           end.
    destruct (percent_inside (clientX e) (DOMRect.left rect) (DOMRect.width rect))
      as [Hx0 Hx1]; try assumption.
    destruct (percent_inside (clientY e) (DOMRect.top rect) (DOMRect.height rect))
      as [Hy0 Hy1]; try assumption.
    repeat split; assumption.
  - rewrite Hm. unfold removeSpot. cbn [setSpots spots].
    now apply Forall_filter_keep.
  - destruct (retouchMode s); [exact Hsp|].
    destruct (spots s) eqn:Hs; [now rewrite Hs|]. constructor.
Qed.

Lemma spot_centres_stay_on_the_image_witness :
  Forall (fun sp => 0 <= x sp /\ x sp <= 100 /\ 0 <= y sp /\ y sp <= 100)
         (spots (run initial
                   [(mkProps "o" None false, ClickManual);
                    (mkProps "o" None false,
                     ClickImage (Some (DOMRect.mk 10 20 200 100)) 1000
                                (mkMouseEvent 210 20 false false))])).
Proof.
  exact (spot_centres_stay_on_the_image
           [(mkProps "o" None false, ClickManual);
            (mkProps "o" None false,
             ClickImage (Some (DOMRect.mk 10 20 200 100)) 1000
                        (mkMouseEvent 210 20 false false))]
           eq_refl).
Defined.

Lemma clamped_percentage (d w : Q) :
  0 < w ->
  0 <= mathMax 0 (mathMin d w) / w * 100
  /\ mathMax 0 (mathMin d w) / w * 100 <= 100.
Proof.
  intros Hw.
  assert (Hc : 0 <= mathMax 0 (mathMin d w) /\ mathMax 0 (mathMin d w) <= w).
  { unfold mathMax, mathMin.
    destruct (Qle_bool d w) eqn:E1.
    - apply Qle_bool_iff in E1.
      destruct (Qle_bool 0 d) eqn:E2; [apply Qle_bool_iff in E2|]; split; lra.
    - destruct (Qle_bool 0 w) eqn:E2; [|split; lra].
      split; lra. }
  destruct Hc as [H0 H1].
  assert (0 <= mathMax 0 (mathMin d w) / w) by (apply Qle_shift_div_l; lra).
  assert (mathMax 0 (mathMin d w) / w <= 1) by (apply Qle_shift_div_r; lra).
  split; lra.
Qed.

(** The slider position stays within 0..100 percent wherever the pointer
    moves, as long as the container has a positive width. *)
Theorem slider_position_stays_in_range :
  forall (acts : list (Props * Action)),
    forallb (fun pa => containerHasWidth (snd pa)) acts = true ->
    0 <= sliderPosition (run initial acts)
    /\ sliderPosition (run initial acts) <= 100.
Proof.
  intros acts Hall.
  apply (run_invariant
           (fun s => 0 <= sliderPosition s /\ sliderPosition s <= 100)
           containerHasWidth); [| exact Hall | cbn; split; unfold Qle; simpl; lia].
  intros p s a Ha Hs.
  destruct a; cbn [step]; open_handlers;
    cbn [sliderPosition setIntensity setViewMode setRetouchMode
         setSpots setIsHoldingOriginal setSliderPosition setBrushSize
         setAspectRatio setCursorPos setIsDraggingSlider];
    try exact Hs;
    try discriminate;
    cbn [containerHasWidth] in Ha;
    (match goal with
     | H : Some _ = Some _ |- _ => injection H as <-
     | _ => idtac
     end);
    apply clamped_percentage; now apply Qltb_iff.
Qed.

Lemma slider_position_stays_in_range_witness :
  sliderPosition
    (run initial
       [(mkProps "o" (Some "p") false, SliderDown);
        (mkProps "o" (Some "p") false,
         MouseMove (Some (DOMRect.mk 10 0 200 100))
                   (mkMouseEvent 500 40 false false))])
  <= 100.
Proof.
  exact (proj2 (slider_position_stays_in_range
                  [(mkProps "o" (Some "p") false, SliderDown);
                   (mkProps "o" (Some "p") false,
                    MouseMove (Some (DOMRect.mk 10 0 200 100))
                              (mkMouseEvent 500 40 false false))]
                  eq_refl)).
Defined.

End EditorRanges.

(** ** What the export reads and what it leaves alone *)

Section ExportFrame.
Import Canvas2D Editor.
Context {P : Platform}.

Local Open Scope Q_scope.

(** The export reads three cells only: two states that agree on
    intensity, retouch mode and spots export the same, whatever their view
    mode, slider position, hold flag, brush size, stored aspect ratio and
    cursor. *)
Theorem handleDownload_reads_blend_cells_only :
  forall (p : Props) (s1 s2 : state),
    intensity s1 = intensity s2 ->
    retouchMode s1 = retouchMode s2 ->
    spots s1 = spots s2 ->
    handleDownload p s1 = handleDownload p s2.
Proof.
  intros p s1 s2 Hi Hm Hs.
  assert (Hcompose : forall imgs, compose s1 imgs = compose s2 imgs).
  { intros imgs. unfold compose, drawing, maskCmds. now rewrite Hi, Hm, Hs. }
  unfold handleDownload.
  destruct (processedImage p) as [processed|]; [|reflexivity].
  destruct (negb (JS.truthy processed)); [reflexivity|].
  do 2 f_equal. unfold JS.andThen.
  destruct (JS.all2 (loadImg (originalImage p)) (loadImg processed));
    [reflexivity | now rewrite Hcompose | reflexivity].
Qed.

Lemma existsb_incl {A} (f : A -> bool) (l1 l2 : list A) :
  incl l1 l2 -> existsb f l1 = true -> existsb f l2 = true.
Proof.
  intros Hincl H. apply existsb_exists in H as [a [Hin Hf]].
  apply existsb_exists. exists a. split; [now apply Hincl | exact Hf].
Qed.

Lemma existsb_same_members {A} (f : A -> bool) (l1 l2 : list A) :
  (forall a, In a l1 <-> In a l2) -> existsb f l1 = existsb f l2.
Proof.
  intros H. apply bool_eq_iff. split; apply existsb_incl; intros a Ha; now apply H.
Qed.

(** The clip region of the export depends on which spots are stored, not
    on their order or multiplicity: two Manual states whose stores hold
    the same spots clip to the same region. *)
Theorem exportClip_ignores_spot_order :
  forall (s1 s2 : state) (w h : Z),
    (0 <= w)%Z ->
    retouchMode s1 = Manual ->
    retouchMode s2 = Manual ->
    Forall (fun sp => 0 <= radius sp) (spots s1) ->
    (forall sp, In sp (spots s1) <-> In sp (spots s2)) ->
    exists region1 region2,
      exportClip s1 w h = Some region1
      /\ exportClip s2 w h = Some region2
      /\ forall px py, region1 px py = region2 px py.
Proof.
  intros s1 s2 w h Hw Hm1 Hm2 Hall Hsame.
  assert (Hall2 : Forall (fun sp => 0 <= radius sp) (spots s2)).
  { rewrite Forall_forall in *. intros sp Hin. apply Hall. now apply Hsame. }
  destruct (exportClip_region s1 w h Hw Hall) as (r1 & Hr1 & Hp1).
  destruct (exportClip_region s2 w h Hw Hall2) as (r2 & Hr2 & Hp2).
  exists r1, r2. split; [exact Hr1|]. split; [exact Hr2|].
  intros px py. rewrite Hp1, Hp2. unfold maskRegion. rewrite Hm1, Hm2.
  destruct (spots s1) as [|a l1] eqn:E1; destruct (spots s2) as [|b l2] eqn:E2.
  - reflexivity.
  - exfalso. apply (proj2 (Hsame b)). now left.
  - exfalso. apply (proj1 (Hsame a)). now left.
  - unfold inPath. apply existsb_same_members. intros sh.
    rewrite !in_map_iff. split; intros [sp [Heq Hin]]; exists sp;
      (split; [exact Heq | now apply Hsame]).
Qed.

End ExportFrame.

Lemma exportClip_ignores_spot_order_witness :
  exists region1 region2,
    @Editor.exportClip Session.samplePlatform
      (Editor.mkState 60 Editor.Hold Editor.Manual
         [Editor.mkSpot "1" 20 20 5; Editor.mkSpot "2" 70 60 8]
         false 50 (5 # 2) 1 None false) 4 2
    = Some region1
    /\ @Editor.exportClip Session.samplePlatform
         (Editor.mkState 60 Editor.Hold Editor.Manual
            [Editor.mkSpot "2" 70 60 8; Editor.mkSpot "1" 20 20 5]
            false 50 (5 # 2) 1 None false) 4 2
       = Some region2
    /\ forall px py, region1 px py = region2 px py.
Proof.
  apply (@exportClip_ignores_spot_order Session.samplePlatform
           (Editor.mkState 60 Editor.Hold Editor.Manual
              [Editor.mkSpot "1" 20 20 5; Editor.mkSpot "2" 70 60 8]
              false 50 (5 # 2) 1 None false)
           (Editor.mkState 60 Editor.Hold Editor.Manual
              [Editor.mkSpot "2" 70 60 8; Editor.mkSpot "1" 20 20 5]
              false 50 (5 # 2) 1 None false)
           4 2).
  - simpl. lia.
  - reflexivity.
  - reflexivity.
  - repeat constructor; unfold Qle; simpl; lia.
  - intros sp. cbn [Editor.spots In]. tauto.
Defined.

Lemma handleDownload_reads_blend_cells_only_witness :
  @Editor.handleDownload Session.samplePlatform
    (Editor.mkProps "o.png" (Some "p.png") false)
    (Editor.step (Editor.mkProps "o.png" (Some "p.png") false)
                 Editor.initial Editor.ClickHoldForOriginal)
  = @Editor.handleDownload Session.samplePlatform
      (Editor.mkProps "o.png" (Some "p.png") false) Editor.initial.
Proof.
  exact (@handleDownload_reads_blend_cells_only Session.samplePlatform
           (Editor.mkProps "o.png" (Some "p.png") false)
           (Editor.step (Editor.mkProps "o.png" (Some "p.png") false)
                        Editor.initial Editor.ClickHoldForOriginal)
           Editor.initial eq_refl eq_refl eq_refl).
Defined.

Section DownloadClick.
Import Canvas2D Editor.
Context {P : Platform}.

(** A click on "Download Image" never writes the App state or the
    Editor's cells; it hands over at most one file, and that file is
    always named dermafix-retouched.jpg, encoded as image/jpeg at quality
    0.92, with the width and height of the decoded original. *)
Theorem clickDownload_adds_at_most_one_file :
  forall (ss : Session.state),
    Session.app (Session.clickDownload ss) = Session.app ss
    /\ Session.editor (Session.clickDownload ss) = Session.editor ss
    /\ (Session.files (Session.clickDownload ss) = Session.files ss
        \/ exists d imgOriginal original,
             Session.files (Session.clickDownload ss)
             = (Session.files ss ++ [d])%list
             /\ download d = "dermafix-retouched.jpg"
             /\ mimeType d = "image/jpeg"
             /\ quality d = (92 # 100)%Q
             /\ App.originalImage (Session.app ss) = Some original
             /\ decode original = Some imgOriginal
             /\ width (raster d) = naturalWidth imgOriginal
             /\ height (raster d) = naturalHeight imgOriginal).
Proof.
  intros ss. unfold Session.clickDownload.
  destruct (Session.editorProps (Session.app ss)) as [p|] eqn:Hprops;
    [|repeat split; now left].
  destruct (handleDownload p (Session.editor ss)) as [r|] eqn:Hrun;
    [|repeat split; now left].
  destruct (completion r) as [|[d|]|] eqn:Hdone;
    try (repeat split; now left).
  cbn [Session.app Session.editor Session.files].
  split; [reflexivity|]. split; [reflexivity|]. right.
  (* the only way to a fulfilled chain with a file *)
  unfold handleDownload in Hrun.
  destruct (processedImage p) as [processed|]; [|discriminate].
  destruct (negb (JS.truthy processed)); [discriminate|].
  injection Hrun as <-. cbn [completion] in Hdone.
  unfold loadImg in Hdone.
  destruct (decode (originalImage p)) as [imgO|] eqn:HdO;
    [|destruct (decode processed); discriminate].
  destruct (decode processed) as [imgP|]; [|discriminate].
  cbn [JS.all2 JS.andThen] in Hdone. unfold compose in Hdone.
  cbn [fst snd] in Hdone.
  destruct (negb getContext2d); [discriminate|].
  destruct (Canvas2D.run _ _) as [k|] eqn:Hk; [|discriminate].
  injection Hdone as <-.
  destruct (run_size _ _ _ Hk) as [Hw Hh].
  cbn [canvas freshContext blank width height] in Hw, Hh.
  unfold Session.editorProps in Hprops.
  destruct (App.originalImage (Session.app ss)) as [original|] eqn:Ho; [|discriminate].
  destruct (JS.truthy original); [|discriminate].
  injection Hprops as <-. cbn [originalImage] in HdO.
  eexists. exists imgO, original.
  repeat split; try reflexivity; assumption.
Qed.

End DownloadClick.

(** ** The page over time *)

Section PageOverTime.
Import GeminiService.

Lemma selectImage_keeps_calls (file : App.File) (pg : Page.state) :
  Page.calls (Page.selectImage file pg) = Page.calls pg
  /\ App.isProcessing (Page.app (Page.selectImage file pg))
     = App.isProcessing (Page.app pg).
Proof.
  unfold Page.selectImage, App.beginImageSelected. cbv zeta.
  destruct (50 * 1024 * 1024 <? App.size file); split; reflexivity.
Qed.

Lemma step_oneCallAtMost (pg : Page.state) (ev : Page.Event) :
  Page.oneCallAtMost pg -> Page.oneCallAtMost (Page.step pg ev).
Proof.
  intros Hinv. destruct ev; cbn [Page.step].
  - destruct (Session.editorProps (Page.app pg)); [exact Hinv|].
    destruct (snd (UploadZone.handleDrop files)) as [file|]; [|exact Hinv].
    destruct (selectImage_keeps_calls file pg) as [Hc Hp].
    unfold Page.oneCallAtMost. now rewrite Hc, Hp.
  - destruct (Session.editorProps (Page.app pg)); [exact Hinv|].
    destruct (UploadZone.handleFileInput files) as [file|]; [|exact Hinv].
    destruct (App.isProcessing (Page.app pg)) eqn:Hbusy; [exact Hinv|].
    destruct (selectImage_keeps_calls file pg) as [Hc Hp].
    unfold Page.oneCallAtMost. rewrite Hc, Hp. exact Hinv.
  - destruct (nth_error (Page.reads pg) n) as [file|]; [|exact Hinv].
    unfold Page.oneCallAtMost. cbn [Page.calls Page.app].
    replace (App.isProcessing (App.settleImageSelected file (Page.app pg)))
      with (App.isProcessing (Page.app pg))
      by (unfold App.settleImageSelected; now destruct (App.readAsDataURL file)).
    exact Hinv.
  - destruct (Session.editorProps (Page.app pg)) as [p|]; [|exact Hinv].
    destruct (Editor.hasProcessed p); [exact Hinv|]. cbn [orb].
    destruct (App.isProcessing (Page.app pg)) eqn:Hbusy; [exact Hinv|].
    destruct Hinv as [[Hcalls _]|[req [_ Habs]]]; [|congruence].
    unfold App.beginProcessImage.
    destruct (App.originalImage (Page.app pg)) as [o|];
      [|left; cbn; now split].
    destruct (negb (JS.truthy o)); [left; cbn; now split|].
    right. eexists. cbn [Page.calls Page.app App.isProcessing].
    rewrite Hcalls. split; reflexivity.
  - destruct (nth_error (Page.calls pg) n) as [req|] eqn:Hnth; [|exact Hinv].
    destruct Hinv as [[Hcalls _]|[req' [Hcalls _]]].
    + rewrite Hcalls in Hnth. destruct n; discriminate Hnth.
    + left. cbn [Page.calls Page.app]. rewrite Hcalls in *.
      destruct n as [|n]; [|destruct n; discriminate Hnth].
      split; [reflexivity|].
      unfold App.settleProcessImage. now destruct (processFaceImage remote).
  - destruct (Session.editorProps (Page.app pg)); exact Hinv.
  - destruct (Session.editorProps (Page.app pg)); [|exact Hinv].
    destruct (Page.editor pg); exact Hinv.
Qed.

(** Whatever the user does and in whatever order reads and calls settle,
    at most one retouch call is in flight, and [isProcessing] is true
    exactly while one is. *)
Theorem at_most_one_retouch_call_in_flight :
  forall (evs : list Page.Event),
    (List.length (Page.calls (Page.run Page.initial evs)) <= 1)%nat
    /\ (App.isProcessing (Page.app (Page.run Page.initial evs)) = true
        <-> Page.calls (Page.run Page.initial evs) <> []).
Proof.
  intros evs.
  assert (Hinv : Page.oneCallAtMost (Page.run Page.initial evs)).
  { unfold Page.run. generalize Page.initial, (or_introl (conj eq_refl eq_refl)
                                                 : Page.oneCallAtMost Page.initial).
    induction evs as [|ev evs IH]; intros pg Hpg; [exact Hpg|].
    apply IH. now apply step_oneCallAtMost. }
  destruct Hinv as [[Hc Hp]|[req [Hc Hp]]]; rewrite Hc, Hp; cbn.
  - split; [lia|]. split; [discriminate | intros H; now elim H].
  - split; [lia|]. split; [discriminate | reflexivity].
Qed.

End PageOverTime.

Section StaleResult.
Import GeminiService.

Lemma accepted_file_begins_read (file : App.File) (st : App.state) :
  (App.size file <= 50 * 1024 * 1024)%Z ->
  App.beginImageSelected file st
  = (App.mkState (App.originalImage st) (App.processedImage st)
                 (App.isProcessing st) None,
     true).
Proof.
  intros Hsize. unfold App.beginImageSelected. cbv zeta.
  now rewrite (proj2 (Z.ltb_ge _ _) Hsize).
Qed.

(** A retouch result that arrives after the image has been replaced.
    Two files are picked in a row, the first finishes loading, and
    "Generate Retouch" is clicked while the second is still being read;
    which of the two settles first decides the outcome.  If the call
    settles first, its result is discarded by the arriving image; if the
    read settles first, the result computed from the first image, under
    the first image's mime type, is stored as the processed version of the
    second. *)
Theorem retouch_result_outlives_its_image :
  forall (f1 f2 : UploadZone.DroppedFile) (o1 o2 d : string)
         (remote : RemoteOutcome),
    (App.size (UploadZone.payload f1) <= 50 * 1024 * 1024)%Z ->
    (App.size (UploadZone.payload f2) <= 50 * 1024 * 1024)%Z ->
    App.readAsDataURL (UploadZone.payload f1) = Some o1 ->
    App.readAsDataURL (UploadZone.payload f2) = Some o2 ->
    JS.truthy o1 = true ->
    JS.truthy o2 = true ->
    processFaceImage remote = Return d ->
    Page.app
      (Page.run Page.initial
         [Page.FileInput [f1]; Page.FileInput [f2]; Page.ReadSettles 0;
          Page.ClickGenerate;
          Page.CallSettles 0 remote; Page.ReadSettles 0])
    = App.mkState (Some o2) None false None
    /\ Page.run Page.initial
         [Page.FileInput [f1]; Page.FileInput [f2]; Page.ReadSettles 0;
          Page.ClickGenerate;
          Page.ReadSettles 0; Page.CallSettles 0 remote]
       = Page.mk
           (App.mkState (Some o2)
              (Some (ImageHelpers.dataUrl (ImageHelpers.getMimeType o1) d))
              false None)
           (Some Editor.initial) [] [].
Proof.
  intros f1 f2 o1 o2 d remote Hs1 Hs2 Hr1 Hr2 Ho1 Ho2 Hcall.
  unfold Page.run. cbn [fold_left].
  (* both files are picked before either is loaded *)
  assert (E1 : Page.step (Page.step Page.initial (Page.FileInput [f1]))
                         (Page.FileInput [f2])
               = Page.mk App.initial None
                         [UploadZone.payload f1; UploadZone.payload f2] []).
  { assert (Efirst : Page.step Page.initial (Page.FileInput [f1])
                     = Page.mk App.initial None [UploadZone.payload f1] []).
    { cbn [Page.step Page.initial Page.app Session.editorProps App.initial
           App.originalImage App.isProcessing UploadZone.handleFileInput].
      unfold Page.selectImage. cbn [Page.app].
      rewrite (accepted_file_begins_read _ _ Hs1). reflexivity. }
    rewrite Efirst.
    cbn [Page.step Page.app Session.editorProps App.initial
         App.originalImage App.isProcessing UploadZone.handleFileInput].
    unfold Page.selectImage. cbn [Page.app].
    rewrite (accepted_file_begins_read _ _ Hs2). reflexivity. }
  rewrite E1.
  (* the first read settles: the Editor mounts *)
  assert (E2 : Page.step (Page.mk App.initial None
                            [UploadZone.payload f1; UploadZone.payload f2] [])
                         (Page.ReadSettles 0)
               = Page.mk (App.mkState (Some o1) None false None)
                         (Some Editor.initial) [UploadZone.payload f2] []).
  { cbn [Page.step Page.reads nth_error Page.app Page.editor Page.calls Page.removeNth].
    unfold App.settleImageSelected. rewrite Hr1.
    unfold Page.render, Session.editorProps. cbn [App.originalImage App.initial
      App.isProcessing App.error]. now rewrite Ho1. }
  rewrite E2.
  (* Generate Retouch *)
  assert (E3 : Page.step (Page.mk (App.mkState (Some o1) None false None)
                                  (Some Editor.initial) [UploadZone.payload f2] [])
                         Page.ClickGenerate
               = Page.mk (App.mkState (Some o1) None true None)
                         (Some Editor.initial) [UploadZone.payload f2]
                         [App.mkRequest (ImageHelpers.getBase64Data o1)
                                        (ImageHelpers.getMimeType o1)]).
  { cbn [Page.step Page.editor Page.app]. unfold Session.editorProps at 1.
    cbn [App.originalImage]. rewrite Ho1.
    cbn [Editor.hasProcessed Editor.processedImage App.processedImage
         App.isProcessing orb].
    unfold App.beginProcessImage. cbn [App.originalImage]. rewrite Ho1.
    cbn [negb App.processedImage Page.reads Page.calls app].
    unfold Page.render, Session.editorProps. cbn [App.originalImage].
    now rewrite Ho1. }
  rewrite E3. split.
  - cbn [Page.step Page.calls nth_error Page.app Page.reads Page.removeNth
         Page.editor].
    unfold App.settleProcessImage. rewrite Hcall.
    unfold App.settleImageSelected. rewrite Hr2. reflexivity.
  - cbn [Page.step Page.calls nth_error Page.app Page.reads Page.removeNth
         Page.editor].
    unfold App.settleImageSelected. rewrite Hr2.
    cbn [Page.step Page.calls nth_error Page.app Page.reads Page.removeNth
         Page.editor App.isProcessing App.error].
    unfold App.settleProcessImage. rewrite Hcall.
    cbn [App.mimeType App.originalImage App.processedImage App.isProcessing
         App.error].
    unfold Page.render, Session.editorProps. cbn [App.originalImage].
    now rewrite Ho2.
Qed.

End StaleResult.

Lemma retouch_result_outlives_its_image_witness :
  Page.app
    (Page.run Page.initial
       [Page.FileInput [UploadZone.mkDroppedFile "image/png"
                          (App.mkFile 1000 (Some "data:image/png;base64,QQ=="))];
        Page.FileInput [UploadZone.mkDroppedFile "image/jpeg"
                          (App.mkFile 2000 (Some "data:image/jpeg;base64,Qg=="))];
        Page.ReadSettles 0; Page.ClickGenerate; Page.ReadSettles 0;
        Page.CallSettles 0
          (GeminiService.Responds (GeminiService.mkResponse (Some
             [GeminiService.mkCandidate (Some
                [GeminiService.mkPart
                   (Some (GeminiService.mkInlineData (Some "QUJD")))])])))])
  = App.mkState (Some "data:image/jpeg;base64,Qg==")
                (Some "data:image/png;base64,QUJD") false None.
Proof.
  refine (f_equal Page.app
            (proj2 (retouch_result_outlives_its_image
                      (UploadZone.mkDroppedFile "image/png"
                         (App.mkFile 1000 (Some "data:image/png;base64,QQ==")))
                      (UploadZone.mkDroppedFile "image/jpeg"
                         (App.mkFile 2000 (Some "data:image/jpeg;base64,Qg==")))
                      "data:image/png;base64,QQ==" "data:image/jpeg;base64,Qg=="
                      "QUJD"
                      (GeminiService.Responds (GeminiService.mkResponse (Some
                         [GeminiService.mkCandidate (Some
                            [GeminiService.mkPart
                               (Some (GeminiService.mkInlineData (Some "QUJD")))])])))
                      _ _ eq_refl eq_refl eq_refl eq_refl eq_refl)));
    simpl; lia.
Defined.
